(** * Event reconciliation of the patrimonial service: [app/messages/event.py]

    A shallow embedding of the [UpdateEvent] class: the envelope parser
    ([create_from_message]), the scope filter ([_check_valid_user_event]),
    the retrying apply loop ([__db_access_loop]) and the entity mutators
    (the [db_access] closures of [create_user], [update_user], ...).

    Python values that come out of [json.loads] are modelled by the type
    [json]; Python exceptions by the type [exn]; a computation that may raise
    by the type [res].  Code that talks to a SQLAlchemy session is written in
    a state-and-exception monad over an explicit session state. *)

From Stdlib Require Import ZArith QArith List Ascii String Bool Lia.
From stdpp Require Import base option gmap strings.

Set Default Proof Using "Type".

Local Open Scope string_scope.
Local Open Scope Z_scope.

(** ** Python values and exceptions *)

(** What [json.loads] can return.  [JNull] is Python's [None]; a JSON object
    is a [dict] with string keys, kept here as an association list whose keys
    are looked up left to right. *)
#[warnings="-register-all"]
Inductive json : Type :=
| JNull
| JBool (b : bool)
| JInt (z : Z)
| JFloat (q : Q)
| JStr (s : string)
| JArr (xs : list json)
| JObj (kvs : list (string * json)).

Abbreviation jdict := (list (string * json)).

(** The exception classes that occur in [event.py]; all of them derive from
    [Exception], so a handler [except Exception] catches every one. *)
Inductive exn : Type :=
| JSONDecodeError
| TypeError
| ValueError
| KeyError (key : string)
| AttributeError
| AssertionError
| StopIteration
| ValidationError
| IntegrityError
| OperationalError (msg : string)
| PlainException (msg : string).

(** A call either returns a value or raises. *)
Inductive res (A : Type) : Type :=
| Ok (a : A)
| Raise (e : exn).
Arguments Ok {A} a.
Arguments Raise {A} e.

#[global] Instance res_ret : MRet res := fun A a => Ok a.
#[global] Instance res_bind : MBind res := fun A B f m =>
  match m with
  | Ok a => f a
  | Raise e => Raise e
  end.
#[global] Instance res_fmap : FMap res := fun A B f m =>
  match m with
  | Ok a => Ok (f a)
  | Raise e => Raise e
  end.

Module Py.

(** [d[k]] on a dict, as an option. *)
Fixpoint dict_lookup (k : string) (d : jdict) : option json :=
  match d with
  | [] => None
  | (k', v) :: rest => if String.eqb k' k then Some v else dict_lookup k rest
  end.

Definition dict_mem (k : string) (d : jdict) : bool :=
  match dict_lookup k d with Some _ => true | None => false end.

(** [d.pop(k)] leaves the other entries. *)
Definition dict_remove (k : string) (d : jdict) : jdict :=
  List.filter (fun kv => negb (String.eqb (fst kv) k)) d.

(** [s == v] for a [str] [s] and any decoded value [v]: only another
    string can be equal to a string. *)
Definition eq_str (v : json) (s : string) : bool :=
  match v with
  | JStr t => String.eqb t s
  | _ => false
  end.

(** [k in s] for two strings is the substring test. *)
Definition is_substring (k s : string) : bool :=
  match String.index 0 k s with Some _ => true | None => false end.

(** [k in v] for a string [k]: key membership on a dict, element membership
    on a list, substring on a string, [TypeError] on [None], booleans and
    numbers ("argument of type ... is not iterable"). *)
Definition contains (k : string) (v : json) : res bool :=
  match v with
  | JObj d => Ok (dict_mem k d)
  | JArr xs => Ok (existsb (fun x => eq_str x k) xs)
  | JStr s => Ok (is_substring k s)
  | JNull | JBool _ | JInt _ | JFloat _ => Raise TypeError
  end.

(** [v[k]] for a string [k]: [KeyError] on a dict without the key,
    [TypeError] on everything that is not a dict. *)
Definition getitem (v : json) (k : string) : res json :=
  match v with
  | JObj d =>
      match dict_lookup k d with
      | Some x => Ok x
      | None => Raise (KeyError k)
      end
  | _ => Raise TypeError
  end.

(** [v.get(k, None)] (also [v.get(k)]): only dicts have the method. *)
Definition get (v : json) (k : string) : res json :=
  match v with
  | JObj d => Ok (default JNull (dict_lookup k d))
  | _ => Raise AttributeError
  end.

(** [bool(v)]. *)
Definition truthy (v : json) : bool :=
  match v with
  | JNull => false
  | JBool b => b
  | JInt z => negb (z =? 0)
  | JFloat q => negb (Qeq_bool q 0)
  | JStr s => negb (String.eqb s EmptyString)
  | JArr xs => match xs with [] => false | _ => true end
  | JObj d => match d with [] => false | _ => true end
  end.

(** [any(map(f, l))]: [map] is lazy and [any] stops at the first true
    element, so [f] runs left to right and an exception ends the scan. *)
Fixpoint any_map (f : string → res bool) (l : list string) : res bool :=
  match l with
  | [] => Ok false
  | x :: rest =>
      b ← f x;
      if b : bool then Ok true else any_map f rest
  end.

(** [v.copy()]: dicts and lists have the method. *)
Definition copy (v : json) : res json :=
  match v with
  | JObj _ | JArr _ => Ok v
  | _ => Raise AttributeError
  end.

(** [v.pop(k)] for a string [k]: the value and what is left of [v]. *)
Definition pop (v : json) (k : string) : res (json * json) :=
  match v with
  | JObj d =>
      match dict_lookup k d with
      | Some x => Ok (x, JObj (dict_remove k d))
      | None => Raise (KeyError k)
      end
  | JArr _ => Raise TypeError
  | _ => Raise AttributeError
  end.

(** The elements [for x in v] runs through. *)
Definition iterate (v : json) : res (list json) :=
  match v with
  | JArr xs => Ok xs
  | JObj d => Ok (map (fun kv => JStr (fst kv)) d)
  | JStr s => Ok (map (fun c => JStr (String c EmptyString)) (list_ascii_of_string s))
  | JNull | JBool _ | JInt _ | JFloat _ => Raise TypeError
  end.

(** [**v]: unpacking needs a mapping. *)
Definition kwargs (v : json) : res jdict :=
  match v with
  | JObj d => Ok d
  | _ => Raise TypeError
  end.

End Py.

(** ** Constants of the collaborating modules *)

(** Modelled from the spec: the members of [DefaultScope]
    ([app/models/scope.py] is not among the sources); the data model lists
    the scopes PATRIMONIAL, ALL, SELLS and HUMAN_RESOURCE, and the code reads
    them through [.value] as strings. *)
Module DefaultScope.
Definition PATRIMONIAL : string := "PATRIMONIAL".
Definition ALL : string := "ALL".
Definition SELLS : string := "SELLS".
Definition HUMAN_RESOURCE : string := "HUMAN_RESOURCE".
End DefaultScope.

(** Modelled from the spec: the members of [EnterpriseEvents] and
    [UserEvents] ([app/router/utils.py] is not among the sources); the
    external interface lists the six event tokens.  The code compares them
    with the decoded [event] string by [==], so they are string enums. *)
Module EnterpriseEvents.
Definition ENTERPRISE_CREATED : string := "enterprise.created".
Definition ENTERPRISE_UPDATED : string := "enterprise.updated".
Definition ENTERPRISE_DELETED : string := "enterprise.deleted".
End EnterpriseEvents.

Module UserEvents.
Definition USER_CREATED : string := "user.created".
Definition USER_UPDATED : string := "user.updated".
Definition USER_DELETED : string := "user.deleted".
End UserEvents.

(** ** Entities and the relational store *)

(** [datetime.datetime] as the fields it carries. *)
Record datetime : Type := mkDatetime {
  year : Z; month : Z; day : Z;
  hour : Z; minute : Z; second : Z; microsecond : Z;
  utcoffset : option Z
}.

(** Modelled from the spec: the ORM classes [Role], [Scope], [Enterprise]
    and [User] ([app/models/role.py], [scope.py], [enterprise.py] and
    [user.py] are not among the sources); the fields are those of the data
    model.  A table class does not validate on assignment, so the text
    fields that [update_user] and [update_enterprise] overwrite with raw
    payload values hold a [json]. *)
Record Role : Type := mkRole {
  role_id : option Z;
  role_name : string;
  role_description : option string;
  role_hierarchy : Z;
  role_enterprise_id : option Z
}.

Record Scope : Type := mkScope {
  scope_id : option Z;
  scope_name : string;
  scope_description : option string;
  scope_enterprise_id : option Z
}.

Record Enterprise : Type := mkEnterprise {
  enterprise_id : option Z;
  enterprise_name : json;
  accountable_email : json;
  activity_type : json
}.

Record User : Type := mkUser {
  user_id : option Z;
  username : json;
  email : json;
  full_name : json;
  user_role_id : option Z;
  user_scope_id : option Z;
  user_enterprise_id : option Z;
  created_at : option datetime
}.

Definition set_role (r : Role) (u : User) : User :=
  mkUser (user_id u) (username u) (email u) (full_name u)
         (role_id r) (user_scope_id u) (user_enterprise_id u) (created_at u).
Definition set_scope (s : Scope) (u : User) : User :=
  mkUser (user_id u) (username u) (email u) (full_name u)
         (user_role_id u) (scope_id s) (user_enterprise_id u) (created_at u).
Definition set_username (v : json) (u : User) : User :=
  mkUser (user_id u) v (email u) (full_name u)
         (user_role_id u) (user_scope_id u) (user_enterprise_id u) (created_at u).
Definition set_email (v : json) (u : User) : User :=
  mkUser (user_id u) (username u) v (full_name u)
         (user_role_id u) (user_scope_id u) (user_enterprise_id u) (created_at u).
Definition set_full_name (v : json) (u : User) : User :=
  mkUser (user_id u) (username u) (email u) v
         (user_role_id u) (user_scope_id u) (user_enterprise_id u) (created_at u).
Definition set_enterprise (e : Enterprise) (u : User) : User :=
  mkUser (user_id u) (username u) (email u) (full_name u)
         (user_role_id u) (user_scope_id u) (enterprise_id e) (created_at u).
Definition set_created_at (t : datetime) (u : User) : User :=
  mkUser (user_id u) (username u) (email u) (full_name u)
         (user_role_id u) (user_scope_id u) (user_enterprise_id u) (Some t).
Definition set_user_id (i : Z) (u : User) : User :=
  mkUser (Some i) (username u) (email u) (full_name u)
         (user_role_id u) (user_scope_id u) (user_enterprise_id u) (created_at u).

(** An object handed to [session.add] or [session.delete].  An enterprise
    travels with the children assigned to its [roles] and [scopes]
    collections, which [add] cascades to. *)
Inductive entity : Type :=
| EUser (u : User)
| ERole (r : Role)
| EScope (s : Scope)
| EEnterprise (e : Enterprise) (roles : list Role) (scopes : list Scope).

(** Whether the object was built by the caller or loaded by [session.get]:
    flushing the first is an INSERT, the second an UPDATE. *)
Inductive object_state : Type := Transient | Persistent.

Inductive pending_op : Type :=
| Insert (e : entity)
| Update (e : entity)
| Delete (e : entity).

Module Store.

(** The four tables the event pipeline touches, keyed by primary key. *)
Record t : Type := mk {
  users : gmap Z User;
  roles : gmap Z Role;
  scopes : gmap Z Scope;
  enterprises : gmap Z Enterprise
}.

Definition with_users (f : gmap Z User → gmap Z User) (s : t) : t :=
  mk (f (users s)) (roles s) (scopes s) (enterprises s).
Definition with_roles (f : gmap Z Role → gmap Z Role) (s : t) : t :=
  mk (users s) (f (roles s)) (scopes s) (enterprises s).
Definition with_scopes (f : gmap Z Scope → gmap Z Scope) (s : t) : t :=
  mk (users s) (roles s) (f (scopes s)) (enterprises s).
Definition with_enterprises (f : gmap Z Enterprise → gmap Z Enterprise) (s : t) : t :=
  mk (users s) (roles s) (scopes s) (f (enterprises s)).

(** The key the store assigns to a row inserted without one. *)
Definition fresh_key {A : Type} (m : gmap Z A) : Z :=
  1 + map_fold (fun k _ acc => Z.max k acc) 0 m.

(** INSERT of one row: a row that brings no key gets a fresh one, a row
    whose key is taken violates the primary key. *)
Definition insert_row {A : Type} (key : option Z) (set_key : Z → A → A)
    (row : A) (m : gmap Z A) : res (Z * gmap Z A) :=
  match key with
  | None => let k := fresh_key m in Ok (k, <[k := set_key k row]> m)
  | Some k =>
      match m !! k with
      | Some _ => Raise IntegrityError
      | None => Ok (k, <[k := row]> m)
      end
  end.

Definition set_role_id (k : Z) (r : Role) : Role :=
  mkRole (Some k) (role_name r) (role_description r) (role_hierarchy r)
         (role_enterprise_id r).
Definition set_role_enterprise (k : Z) (r : Role) : Role :=
  mkRole (role_id r) (role_name r) (role_description r) (role_hierarchy r) (Some k).
Definition set_scope_id (k : Z) (s : Scope) : Scope :=
  mkScope (Some k) (scope_name s) (scope_description s) (scope_enterprise_id s).
Definition set_scope_enterprise (k : Z) (s : Scope) : Scope :=
  mkScope (scope_id s) (scope_name s) (scope_description s) (Some k).
Definition set_enterprise_id (k : Z) (e : Enterprise) : Enterprise :=
  mkEnterprise (Some k) (enterprise_name e) (accountable_email e) (activity_type e).

Definition insert_user (u : User) (s : t) : res t :=
  '(_, m) ← insert_row (user_id u) set_user_id u (users s);
  Ok (with_users (fun _ => m) s).
Definition insert_role (r : Role) (s : t) : res t :=
  '(_, m) ← insert_row (role_id r) set_role_id r (roles s);
  Ok (with_roles (fun _ => m) s).
Definition insert_scope (x : Scope) (s : t) : res t :=
  '(_, m) ← insert_row (scope_id x) set_scope_id x (scopes s);
  Ok (with_scopes (fun _ => m) s).

Fixpoint insert_all {A : Type} (ins : A → t → res t) (l : list A) (s : t) : res t :=
  match l with
  | [] => Ok s
  | x :: rest => s' ← ins x s; insert_all ins rest s'
  end.

Definition release_role (k : Z) (r : Role) : Role :=
  if bool_decide (role_enterprise_id r = Some k)
  then mkRole (role_id r) (role_name r) (role_description r) (role_hierarchy r) None
  else r.
Definition release_scope (k : Z) (x : Scope) : Scope :=
  if bool_decide (scope_enterprise_id x = Some k)
  then mkScope (scope_id x) (scope_name x) (scope_description x) None
  else x.
Definition release_user (k : Z) (u : User) : User :=
  if bool_decide (user_enterprise_id u = Some k)
  then mkUser (user_id u) (username u) (email u) (full_name u)
              (user_role_id u) (user_scope_id u) None (created_at u)
  else u.

(** What the unit of work does to the rows that belong to a deleted
    enterprise, no cascade being asked for: their [enterprise_id] is set
    to NULL. *)
Definition release_enterprise (k : Z) (s : t) : t :=
  mk (release_user k <$> users s) (release_role k <$> roles s)
     (release_scope k <$> scopes s) (enterprises s).

(** The effect of one flushed operation on the tables.  The product table
    is not part of this store (see [Products]); the rows of it that name a
    deleted user or enterprise are released in the same way. *)
Definition apply_op (op : pending_op) (s : t) : res t :=
  match op with
  | Insert (EUser u) => insert_user u s
  | Insert (ERole r) => insert_role r s
  | Insert (EScope x) => insert_scope x s
  | Insert (EEnterprise e rs ss) =>
      '(k, m) ← insert_row (enterprise_id e) set_enterprise_id e (enterprises s);
      s1 ← insert_all insert_role (map (set_role_enterprise k) rs)
             (with_enterprises (fun _ => m) s);
      insert_all insert_scope (map (set_scope_enterprise k) ss) s1
  | Update (EUser u) =>
      Ok (match user_id u with
          | Some k => with_users (alter (fun _ => u) k) s
          | None => s
          end)
  | Update (ERole r) =>
      Ok (match role_id r with
          | Some k => with_roles (alter (fun _ => r) k) s
          | None => s
          end)
  | Update (EScope x) =>
      Ok (match scope_id x with
          | Some k => with_scopes (alter (fun _ => x) k) s
          | None => s
          end)
  | Update (EEnterprise e _ _) =>
      Ok (match enterprise_id e with
          | Some k => with_enterprises (alter (fun _ => e) k) s
          | None => s
          end)
  | Delete (EUser u) =>
      Ok (match user_id u with
          | Some k => with_users (delete k) s
          | None => s
          end)
  | Delete (ERole r) =>
      Ok (match role_id r with
          | Some k => with_roles (delete k) s
          | None => s
          end)
  | Delete (EScope x) =>
      Ok (match scope_id x with
          | Some k => with_scopes (delete k) s
          | None => s
          end)
  | Delete (EEnterprise e _ _) =>
      Ok (match enterprise_id e with
          | Some k => release_enterprise k (with_enterprises (delete k) s)
          | None => s
          end)
  end.

Fixpoint apply_ops (ops : list pending_op) (s : t) : res t :=
  match ops with
  | [] => Ok s
  | op :: rest => s' ← apply_op op s; apply_ops rest s'
  end.

End Store.

(** ** The session *)

Module Session.

(** A SQLAlchemy session over the store: the committed tables it reads,
    the operations waiting for the next flush, and the objects that were
    passed to [add] and [delete] since the session was handed out. *)
Record t : Type := mk {
  committed : Store.t;
  pending : list pending_op;
  added : list entity;
  deleted : list entity
}.

Definition open (s : Store.t) : t := mk s [] [] [].

(** Code that uses a session: it may raise, and what it did to the session
    before raising stays done. *)
Definition M (A : Type) : Type := t → res A * t.

#[global] Instance M_ret : MRet M := fun A a s => (Ok a, s).
#[global] Instance M_bind : MBind M := fun A B f m s =>
  match m s with
  | (Ok a, s') => f a s'
  | (Raise e, s') => (Raise e, s')
  end.

Definition lift {A : Type} (r : res A) : M A := fun s => (r, s).
Definition raise {A : Type} (e : exn) : M A := fun s => (Raise e, s).

(** [try: body except Exception as e: handler]. *)
Definition try_except (body : M unit) (handler : exn → M unit) : M unit :=
  fun s =>
    match body s with
    | (Ok a, s') => (Ok a, s')
    | (Raise e, s') => handler e s'
    end.

(** A digit of a decimal numeral. *)
Definition digit (c : ascii) : option Z :=
  let n := Z.of_N (N_of_ascii c) in
  if (48 <=? n) && (n <=? 57) then Some (n - 48) else None.

Fixpoint digits (acc : Z) (s : string) : option Z :=
  match s with
  | EmptyString => Some acc
  | String c rest =>
      match digit c with
      | Some n => digits (10 * acc + n) rest
      | None => None
      end
  end.

(** The integer a text in plain decimal notation stands for: an optional
    sign and one digit or more. *)
Definition decimal (s : string) : option Z :=
  match s with
  | EmptyString => None
  | String c rest =>
      if Ascii.eqb c "-"%char then
        match rest with
        | EmptyString => None
        | _ => Z.opp <$> digits 0 rest
        end
      else if Ascii.eqb c "+"%char then
        match rest with
        | EmptyString => None
        | _ => digits 0 rest
        end
      else digits 0 s
  end.

(** The primary key an identifier denotes when it is bound to the
    comparison [id = ?], with the conversions of the SQLite driver the
    tests of the repository run on.  [None] (JSON [null]) names no row; a
    boolean is the integer 0 or 1; a float names the row of the integer it
    equals, if any; a text is compared as a number when it is a plain
    decimal numeral, and equals no key otherwise; a list or a dict cannot
    be bound.  An integer is its own key: the column is taken to be wide
    enough for it (the driver refuses an integer beyond the width of the
    column, see [in_integer_range]). *)
Definition as_pk (ident : json) : res (option Z) :=
  match ident with
  | JInt z => Ok (Some z)
  | JBool b => Ok (Some (Z.b2z b))
  | JNull => Ok None
  | JFloat q =>
      let r := Qred q in
      Ok (if (Qden r =? 1)%positive then Some (Qnum r) else None)
  | JStr s => Ok (decimal s)
  | _ => Raise (OperationalError "unsupported primary key")
  end.

(** The identifiers an INTEGER column holds whatever the database: 32
    bits (PostgreSQL), within the 64 bits of SQLite.  [session.get] with
    an integer outside the width of the column raises. *)
Definition in_integer_range (k : Z) : Prop :=
  -2147483648 ≤ k ≤ 2147483647.

Definition get_in {A : Type} (table : Store.t → gmap Z A) (ident : json) : M (option A) :=
  fun s =>
    match as_pk ident with
    | Ok (Some k) => (Ok (table (committed s) !! k), s)
    | Ok None => (Ok None, s)
    | Raise e => (Raise e, s)
    end.

(** [session.get(User, ident)] and its siblings. *)
Definition get_user : json → M (option User) := get_in Store.users.
Definition get_role : json → M (option Role) := get_in Store.roles.
Definition get_scope : json → M (option Scope) := get_in Store.scopes.
Definition get_enterprise : json → M (option Enterprise) := get_in Store.enterprises.

(** [session.add(obj)]. *)
Definition add (st : object_state) (e : entity) : M unit :=
  fun s =>
    let op := match st with Transient => Insert e | Persistent => Update e end in
    (Ok (), mk (committed s) (pending s ++ [op]) (added s ++ [e]) (deleted s)).

(** [session.delete(obj)]. *)
Definition delete (e : entity) : M unit :=
  fun s =>
    (Ok (), mk (committed s) (pending s ++ [Delete e]) (added s) (deleted s ++ [e])).

(** [session.commit()]: the pending operations reach the tables together,
    or none does and the commit raises. *)
Definition commit : M unit :=
  fun s =>
    match Store.apply_ops (pending s) (committed s) with
    | Ok c => (Ok (), mk c [] (added s) (deleted s))
    | Raise e => (Raise e, mk (committed s) [] (added s) (deleted s))
    end.

(** [session.close()] and [session.rollback()] drop what was not
    committed. *)
Definition close (s : t) : t := mk (committed s) [] (added s) (deleted s).
Definition rollback (s : t) : t := mk (committed s) [] (added s) (deleted s).

(** [with db as session: body]: the session is closed on the way out,
    whether [body] returned or raised. *)
Definition with_session {A : Type} (body : M A) : M A :=
  fun s => let '(r, s') := body s in (r, close s').

(** Modelled from the spec: [session.exec(BaseRole.get_roles_by_names(
    enterprise_id, [name])).first()] ([app/models/role.py] is not among the
    sources): a role of that enterprise with that name, if there is one. *)
Definition first_role_by_name (eid name : json) : M (option Role) :=
  fun s =>
    match as_pk eid with
    | Ok k =>
        (Ok (snd <$> List.find
               (fun kv => bool_decide (role_enterprise_id (snd kv) = k)
                          && Py.eq_str name (role_name (snd kv)))
               (map_to_list (Store.roles (committed s)))), s)
    | Raise e => (Raise e, s)
    end.

(** Modelled from the spec: the same query on scopes,
    [BaseScope.get_roles_by_names] in the source. *)
Definition first_scope_by_name (eid name : json) : M (option Scope) :=
  fun s =>
    match as_pk eid with
    | Ok k =>
        (Ok (snd <$> List.find
               (fun kv => bool_decide (scope_enterprise_id (snd kv) = k)
                          && Py.eq_str name (scope_name (snd kv)))
               (map_to_list (Store.scopes (committed s)))), s)
    | Raise e => (Raise e, s)
    end.

End Session.

(** ** The retrying apply loop *)

Module Loop.
Section Loop.

(** The type of session objects, with what [db.close()] and
    [db.rollback()] do to one; both are taken not to raise, and a session
    object is truthy. *)
Context {S : Type}.
Variable close : S → S.
Variable rollback : S → S.

(** What one pass through the body of the [while] meets: what
    [next(get_db())] does, what [db_function_callback(db)] does to the
    session it is given, and what [db.is_active] answers. *)
Record attempt : Type := mkAttempt {
  acquire : res (option S);
  callback : S → res unit * S;
  is_active : S → bool
}.

Inductive effect : Type :=
| Acquire
| Call
| Close
| Rollback
| Caught (e : exn)
| Sleep (seconds : Z).

(** The local variables of [__db_access_loop], and what it did so far. *)
Record state : Type := mkState {
  db : option S;
  err : option exn;
  counter : Z;
  trace : list effect
}.

Definition init (retries : Z) : state := mkState None None retries [].

Definition acquisitions (st : state) : nat :=
  length (List.filter (fun ev => match ev with Acquire => true | _ => false end)
            (trace st)).

(** The callback runs exactly when [next(get_db())] yielded a session. *)
Definition ever_acquired (st : state) : bool :=
  existsb (fun ev => match ev with Call => true | _ => false end) (trace st).

(** The error of the most recent pass that ended in the handler. *)
Definition last_caught (tr : list effect) : option exn :=
  fold_left (fun acc ev => match ev with Caught e => Some e | _ => acc end) tr None.

Inductive outcome : Type :=
| Continue (st : state)
| Break (st : state).

(** The [except Exception as db_err] clause: without a session in [db] it
    only records the error. *)
Definition handler (a : attempt) (db_err : exn) (st : state) : outcome :=
  match db st with
  | Some s =>
      let s := rollback s in
      if is_active a s then
        Continue (mkState (Some (close s)) (Some db_err) (counter st - 1)
                    (trace st ++ [Caught db_err; Rollback; Close; Sleep 5]))
      else
        Continue (mkState (Some s) (Some db_err) (counter st - 1)
                    (trace st ++ [Caught db_err; Rollback; Sleep 5]))
  | None =>
      Continue (mkState None (Some db_err) (counter st) (trace st ++ [Caught db_err]))
  end.

(** One pass through the body of the [while]. *)
Definition pass (a : attempt) (st : state) : outcome :=
  let st := mkState (db st) (err st) (counter st) (trace st ++ [Acquire]) in
  match acquire a with
  | Raise db_err => handler a db_err st
  | Ok None =>
      Continue (mkState None (err st) (counter st - 1) (trace st ++ [Sleep 5]))
  | Ok (Some s) =>
      match callback a s with
      | (Ok _, s) =>
          if is_active a s then
            Break (mkState (Some (close s)) (err st) (counter st)
                     (trace st ++ [Call; Close]))
          else
            Break (mkState (Some s) (err st) (counter st) (trace st ++ [Call]))
      | (Raise db_err, s) =>
          handler a db_err
            (mkState (Some s) (err st) (counter st) (trace st ++ [Call]))
      end
  end.

(** [while counter > 0: ...]; the i-th pass meets [env i].  [None] when
    the loop is still running after [fuel] passes. *)
Fixpoint while_loop (fuel : nat) (env : nat → attempt) (i : nat) (st : state)
    : option state :=
  if counter st >? 0 then
    match fuel with
    | O => None
    | Datatypes.S fuel' =>
        match pass (env i) st with
        | Break st' => Some st'
        | Continue st' => while_loop fuel' env (Datatypes.S i) st'
        end
    end
  else Some st.

(** The state after at most [n] passes, finished or not. *)
Fixpoint unroll (n : nat) (env : nat → attempt) (i : nat) (st : state) : state :=
  match n with
  | O => st
  | Datatypes.S n' =>
      if counter st >? 0 then
        match pass (env i) st with
        | Break st' => st'
        | Continue st' => unroll n' env (Datatypes.S i) st'
        end
      else st
  end.

(** The code after the [while]. *)
Definition after_loop (st : state) : res unit :=
  if counter st =? 0 then
    match db st with
    | None => Raise (PlainException "Failed to connect to the database")
    | Some _ =>
        match err st with
        | Some e => Raise e
        | None => Ok ()
        end
    end
  else Ok ().

(** [UpdateEvent.__db_access_loop(db_function_callback, retries)]: the
    result and the final state, or [None] when [fuel] passes do not end the
    loop. *)
Definition __db_access_loop (fuel : nat) (env : nat → attempt) (retries : Z)
    : option (res unit * state) :=
  st ← while_loop fuel env 0%nat (init retries);
  Some (after_loop st, st).

(** [retries: int = 5]. *)
Definition default_retries : Z := 5.

(** A session provider whose [next(get_db())] raises [e] on every call. *)
Definition always_failing (e : exn) (cb : S → res unit * S) (active : S → bool)
    : nat → attempt :=
  fun _ => mkAttempt (Raise e) cb active.

(** What holds of the local variables whenever the [while] tests its
    condition: [err] is the last caught error, a counter at 0 comes with
    an empty [db] or a recorded error, and [db] is empty as long as no
    session was acquired. *)
Definition invariant (st : state) : Prop :=
  err st = last_caught (trace st)
  ∧ (counter st = 0 → db st = None ∨ err st ≠ None)
  ∧ (ever_acquired st = false → db st = None).

End Loop.
Arguments attempt : clear implicits.
Arguments state : clear implicits.
Arguments outcome : clear implicits.
End Loop.

(** ** The [UpdateEvent] class *)

Record UpdateEvent : Type := mkUpdateEvent {
  event : json;
  event_scope : json;
  data : json;
  start_date : datetime;
  origin : json;
  update_scope : json;
  full_user : json
}.

(** ** Sample collaborators and data

    Concrete stand-ins for the library parsers and the model constructors,
    and a small store, on which the statements below are exercised. *)

Module Sample.

Definition dq : string := String (Ascii.ascii_of_nat 34) EmptyString.
Definition quoted (s : string) : string := dq ++ s ++ dq.

Definition noon : datetime := mkDatetime 2024 5 17 12 0 0 0 None.
Definition midnight : datetime := mkDatetime 2024 1 1 0 0 0 0 None.

Definition fromisoformat (s : string) : option datetime :=
  if String.eqb s "2024-05-17T12:00:00" then Some noon else None.

(** An envelope with all five fields whose [start_date] is no timestamp. *)
Definition bad_date_object : jdict :=
  [("event", JStr "user.deleted"); ("event_scope", JStr "ALL");
   ("data", JObj [("id", JInt 5)]); ("origin", JStr "rh_service");
   ("start_date", JStr "yesterday")].

Definition bad_date_message : string :=
  "{" ++ quoted "event" ++ ": " ++ quoted "user.deleted" ++ ", "
      ++ quoted "event_scope" ++ ": " ++ quoted "ALL" ++ ", "
      ++ quoted "data" ++ ": {" ++ quoted "id" ++ ": 5}, "
      ++ quoted "origin" ++ ": " ++ quoted "rh_service" ++ ", "
      ++ quoted "start_date" ++ ": " ++ quoted "yesterday" ++ "}".

(** A decoder that knows two texts. *)
Definition json_loads (m : string) : option json :=
  if String.eqb m "null" then Some JNull
  else if String.eqb m bad_date_message then Some (JObj bad_date_object)
  else None.

Definition int_field (k : string) (d : jdict) : option Z :=
  match Py.dict_lookup k d with
  | Some (JInt z) => Some z
  | _ => None
  end.

Definition Role_new (d : jdict) : res Role :=
  match Py.dict_lookup "name" d with
  | Some (JStr n) => Ok (mkRole (int_field "id" d) n None 1 (int_field "enterprise_id" d))
  | _ => Raise ValidationError
  end.

Definition Scope_new (d : jdict) : res Scope :=
  match Py.dict_lookup "name" d with
  | Some (JStr n) => Ok (mkScope (int_field "id" d) n None (int_field "enterprise_id" d))
  | _ => Raise ValidationError
  end.

Definition Enterprise_new (d : jdict) : res Enterprise :=
  match Py.dict_lookup "name" d with
  | Some n =>
      Ok (mkEnterprise (int_field "id" d) n
            (default JNull (Py.dict_lookup "accountable_email" d))
            (default JNull (Py.dict_lookup "activity_type" d)))
  | None => Raise ValidationError
  end.

Definition User_new (d : jdict) : res User :=
  match Py.dict_lookup "username" d with
  | Some n =>
      Ok (mkUser (int_field "id" d) n
            (default JNull (Py.dict_lookup "email" d))
            (default JNull (Py.dict_lookup "full_name" d))
            (int_field "role_id" d) (int_field "scope_id" d)
            (int_field "enterprise_id" d) None)
  | None => Raise ValidationError
  end.

(** The validated snapshot: the user columns and the name of the nested
    scope. *)
Record UserRead : Type := mkUserRead {
  read_user : User;
  read_scope_name : string
}.

Definition UserRead_new (d : jdict) : res UserRead :=
  match Py.dict_lookup "scope" d with
  | Some (JObj sd) =>
      match Py.dict_lookup "name" sd with
      | Some (JStr n) => u ← User_new d; Ok (mkUserRead u n)
      | _ => Raise ValidationError
      end
  | _ => Raise ValidationError
  end.

(** The [User] built from the dump of the snapshot: the dump holds the
    nested scope as a dict, which the relationship attribute of the table
    class refuses. *)
Definition User_of_read (ur : UserRead) : res User := Raise AttributeError.

(** The fields of an enterprise update that are not [None]. *)
Definition EnterpriseUpdate_new (d : jdict) : res jdict :=
  Ok (List.filter (fun kv => match snd kv with JNull => false | _ => true end) d).

Definition owner : Role := mkRole (Some 2) "OWNER" None 1 (Some 1).
Definition sells : Scope := mkScope (Some 1) "SELLS" None (Some 1).
Definition patrimonial : Scope := mkScope (Some 3) "PATRIMONIAL" None (Some 1).
Definition testuser : User :=
  mkUser (Some 5) (JStr "testuser") (JStr "testemail@test.mail.com")
         (JStr "Test User") (Some 2) (Some 1) (Some 1) None.

Definition store : Store.t :=
  Store.mk {[5 := testuser]} {[2 := owner]} {[1 := sells; 3 := patrimonial]} ∅.

Definition snapshot (scope : string) : json :=
  JObj [("id", JInt 5); ("username", JStr "testuser");
        ("scope", JObj [("id", JInt 1); ("name", JStr scope)])].

Definition user_updated (data_ snapshot_ : json) : UpdateEvent :=
  mkUpdateEvent (JStr "user.updated") (JStr "ALL") data_ noon (JStr "rh_service")
    JNull snapshot_.

(** The snapshot says HUMAN_RESOURCE. *)
Definition out_of_scope_update : UpdateEvent :=
  user_updated (JObj [("id", JInt 5); ("enterprise_id", JInt 1)])
    (snapshot "HUMAN_RESOURCE").

(** The same, with the id given as a text. *)
Definition out_of_scope_update_text_id : UpdateEvent :=
  user_updated (JObj [("id", JStr "5"); ("enterprise_id", JInt 1)])
    (snapshot "HUMAN_RESOURCE").

(** The same, with an [enterprise_id] that is present and is 0. *)
Definition out_of_scope_update_enterprise_0 : UpdateEvent :=
  user_updated (JObj [("id", JInt 5); ("enterprise_id", JInt 0)])
    (snapshot "HUMAN_RESOURCE").

(** A SELLS user the store does not know. *)
Definition unknown_sells_update : UpdateEvent :=
  user_updated (JObj [("id", JInt 6); ("enterprise_id", JInt 1)])
    (snapshot "SELLS").

(** A role by [role_id] together with a scope by [scope_id]. *)
Definition role_and_scope_update : UpdateEvent :=
  user_updated
    (JObj [("id", JInt 5); ("enterprise_id", JInt 1);
           ("role_id", JInt 2); ("scope_id", JInt 3)])
    (snapshot "SELLS").

Definition user_created : UpdateEvent :=
  mkUpdateEvent (JStr "user.created") (JStr "ALL")
    (JObj [("id", JInt 7); ("username", JStr "testuser2");
           ("email", JStr "testemail2@test.mail.com");
           ("full_name", JStr "Test User 2");
           ("role", JObj [("id", JInt 2); ("name", JStr "OWNER")]);
           ("scope", JObj [("id", JInt 1); ("name", JStr "ALL")]);
           ("enterprise", JObj [("id", JInt 1); ("name", JStr "TestEnterprise")]);
           ("created_at", JStr "2024-05-17T12:00:00")])
    noon (JStr "rh_service") JNull JNull.

Definition user_deleted_without_id : UpdateEvent :=
  mkUpdateEvent (JStr "user.deleted") (JStr "PATRIMONIAL") (JObj [])
    noon (JStr "rh_service") JNull JNull.

(** A callback that always raises, on a provider that yields a session
    at the first call and nothing afterwards. *)
Definition boom : exn := OperationalError "connection reset".

Definition session_then_nothing (i : nat) : Loop.attempt unit :=
  Loop.mkAttempt
    (match i with O => Ok (Some ()) | _ => Ok None end)
    (fun s => (Raise boom, s))
    (fun _ => true).

(** A provider that never yields a session. *)
Definition never_available (i : nat) : Loop.attempt unit :=
  Loop.mkAttempt (Ok None) (fun s => (Ok (), s)) (fun _ => true).

(** A provider that yields a session over [store] at every call. *)
Definition always_available (i : nat) : res (option Session.t) :=
  Ok (Some (Session.open store)).

End Sample.

(** ** Accounting on the trace of the apply loop *)

Module LoopTrace.
Section LoopTrace.

Context {S : Type}.

(** How often [db_function_callback] was invoked. *)
Fixpoint calls_in (tr : list Loop.effect) : nat :=
  match tr with
  | [] => 0%nat
  | Loop.Call :: rest => Datatypes.S (calls_in rest)
  | _ :: rest => calls_in rest
  end.

(** The seconds spent in [asyncio.sleep]. *)
Fixpoint slept_in (tr : list Loop.effect) : Z :=
  match tr with
  | [] => 0
  | Loop.Sleep seconds :: rest => seconds + slept_in rest
  | _ :: rest => slept_in rest
  end.

(** How often [db.rollback()] was invoked. *)
Fixpoint rollbacks_in (tr : list Loop.effect) : nat :=
  match tr with
  | [] => 0%nat
  | Loop.Rollback :: rest => Datatypes.S (rollbacks_in rest)
  | _ :: rest => rollbacks_in rest
  end.

Definition calls (st : Loop.state S) : nat := calls_in (Loop.trace st).
Definition slept (st : Loop.state S) : Z := slept_in (Loop.trace st).
Definition rollbacks (st : Loop.state S) : nat := rollbacks_in (Loop.trace st).

(** The trace of [k] passes that found no session. *)
Fixpoint unavailable_trace (k : nat) : list Loop.effect :=
  match k with
  | O => []
  | Datatypes.S k' => Loop.Acquire :: Loop.Sleep 5 :: unavailable_trace k'
  end.

(** The local variables after [k] more passes that found no session. *)
Definition after_unavailable (k : nat) (st : Loop.state S) : Loop.state S :=
  match k with
  | O => st
  | _ =>
      Loop.mkState None (Loop.err st) (Loop.counter st - Z.of_nat k)
        (Loop.trace st ++ unavailable_trace k)
  end.

End LoopTrace.
End LoopTrace.

(** ** The product endpoints: [app/router/products.py]

    The four endpoints are functions of the validated request, the
    authenticated user and the product table; they answer with a value, with
    an [HTTPException], or with an exception nobody catches. *)

Module Products.

(** The columns of [BaseProduct] ([app/models/products.py]).  A table class
    does not validate on assignment, so every attribute can hold [None]
    until the row is written. *)
Record BaseProduct : Type := mkBaseProduct {
  id : option Z;
  name : option string;
  cost : option Q;
  description : option string;
  stock : option Z;
  enterprise_id : option Z;
  price : option Q;
  created_at : option datetime;
  updated_at : option datetime;
  deleted_at : option datetime;
  created_by : option Z;
  last_updated_by : option Z
}.

(** [ProductCreate]. *)
Record ProductCreate : Type := mkProductCreate {
  new_cost : Q;
  new_name : string;
  new_description : option string;
  new_stock : Z
}.

(** [ProductUpdate]: a field is unset ([None]), or set to [None] or to a
    value; [model_dump(exclude_unset=True)] lists the fields that are set,
    in the order of the class. *)
Record ProductUpdate : Type := mkProductUpdate {
  upd_cost : option (option Q);
  upd_name : option (option string);
  upd_stock : option (option Z);
  upd_price : option (option Q);
  upd_description : option (option string)
}.

(** How an endpoint ends. *)
Inductive response (A : Type) : Type :=
| Returned (a : A)
| HTTPException (status_code : Z) (detail : string)
| Uncaught (e : exn).
Arguments Returned {A} a.
Arguments HTTPException {A} status_code detail.
Arguments Uncaught {A} e.

(** Modelled from the spec: the members of [DefaultRole]
    ([app/models/role.py] is not among the sources). *)
Inductive DefaultRole : Type := OWNER | MANAGER | COLLABORATOR.

(** What the endpoints pass to [DefaultRole.get_default_hierarchy]: a
    member ([DefaultRole.MANAGER]) or its value
    ([DefaultRole.MANAGER.value]). *)
Inductive role_ref : Type :=
| Member (r : DefaultRole)
| Value (r : DefaultRole).

Definition key_if_set {A : Type} (key : string) (field : option A) : list string :=
  match field with
  | Some _ => [key]
  | None => []
  end.

(** The keys of [product.model_dump(exclude_unset=True)]. *)
Definition set_keys (product : ProductUpdate) : list string :=
  key_if_set "cost" (upd_cost product)
  ++ key_if_set "name" (upd_name product)
  ++ key_if_set "stock" (upd_stock product)
  ++ key_if_set "price" (upd_price product)
  ++ key_if_set "description" (upd_description product).

(** [for key, value in product.model_dump(exclude_unset=True).items():
    setattr(db_product, key, value)]. *)
Definition apply_update (product : ProductUpdate) (p : BaseProduct) : BaseProduct :=
  mkBaseProduct (id p)
    (from_option (fun v => v) (name p) (upd_name product))
    (from_option (fun v => v) (cost p) (upd_cost product))
    (from_option (fun v => v) (description p) (upd_description product))
    (from_option (fun v => v) (stock p) (upd_stock product))
    (enterprise_id p)
    (from_option (fun v => v) (price p) (upd_price product))
    (created_at p) (updated_at p) (deleted_at p) (created_by p) (last_updated_by p).

Definition stamp_update (by_user : option Z) (at_time : datetime) (p : BaseProduct)
    : BaseProduct :=
  mkBaseProduct (id p) (name p) (cost p) (description p) (stock p) (enterprise_id p)
    (price p) (created_at p) (Some at_time) (deleted_at p) (created_by p) by_user.

Definition set_id (k : Z) (p : BaseProduct) : BaseProduct :=
  mkBaseProduct (Some k) (name p) (cost p) (description p) (stock p) (enterprise_id p)
    (price p) (created_at p) (updated_at p) (deleted_at p) (created_by p)
    (last_updated_by p).

Section Endpoints.

(** The authenticated user, of which the endpoints read [id],
    [enterprise_id] and [role.hierarchy] ([app/models/user.py] is not among
    the sources). *)
Variable UserRead : Type.
Variable user_id_of : UserRead → option Z.
Variable enterprise_of : UserRead → option Z.
Variable hierarchy_of : UserRead → Z.

(** [authorize_user(user, operation_scopes, operation_hierarchy_order,
    custom_checks)] and [DefaultRole.get_default_hierarchy]
    ([app/middlewares/auth.py] and [app/models/role.py] are not among the
    sources). *)
Variable authorize_user : UserRead → list string → Z → option bool → response unit.
Variable get_default_hierarchy : role_ref → Z.

(** [datetime.now(timezone.utc)]. *)
Variable now : datetime.

(** Whether the database refuses to write the row next to the rows it
    holds (a NOT NULL column left empty, a name that is taken). *)
Variable refused : gmap Z BaseProduct → BaseProduct → bool.

(** The response model built from the dump of a row, whose validation may
    fail. *)
Variable ProductResponse : Type.
Variable ProductResponse_new : BaseProduct → res ProductResponse.

Definition respond (p : BaseProduct) : response ProductResponse :=
  match ProductResponse_new p with
  | Ok r => Returned r
  | Raise e => Uncaught e
  end.

(** [select(BaseProduct).where(BaseProduct.id == product_id)
    .where(BaseProduct.enterprise_id == current_user.enterprise_id)],
    [.first()].  [product_id] is taken to fit the column, as integers are in
    [Session.as_pk]. *)
Definition find_product (table : gmap Z BaseProduct) (product_id : Z)
    (current_user : UserRead) : option BaseProduct :=
  match table !! product_id with
  | Some p =>
      if bool_decide (enterprise_id p = enterprise_of current_user) then Some p else None
  | None => None
  end.

Definition operation_scopes : list string := ["Patrimonial"; "All"].

(** [create_product]. *)
Definition create_product (product : ProductCreate) (current_user : UserRead)
    (table : gmap Z BaseProduct) : response ProductResponse * gmap Z BaseProduct :=
  match authorize_user current_user operation_scopes
          (get_default_hierarchy (Member COLLABORATOR)) None with
  | Returned _ =>
      match enterprise_of current_user with
      | None => (HTTPException 403 "User has no enterprise", table)
      | Some e =>
          let db_product :=
            mkBaseProduct None (Some (new_name product)) (Some (new_cost product))
              (new_description product) (Some (new_stock product)) (Some e)
              None (Some now) None None (user_id_of current_user) None in
          if refused table db_product then (Uncaught IntegrityError, table)
          else
            let k := Store.fresh_key table in
            let db_product := set_id k db_product in
            (respond db_product, <[k := db_product]> table)
      end
  | HTTPException status_code detail => (HTTPException status_code detail, table)
  | Uncaught e => (Uncaught e, table)
  end.

(** [read_product]. *)
Definition read_product (product_id : Z) (current_user : UserRead)
    (table : gmap Z BaseProduct) : response ProductResponse :=
  match authorize_user current_user operation_scopes
          (get_default_hierarchy (Member COLLABORATOR)) None with
  | Returned _ =>
      match find_product table product_id current_user with
      | None => HTTPException 404 "Product not found"
      | Some db_product => respond db_product
      end
  | HTTPException status_code detail => HTTPException status_code detail
  | Uncaught e => Uncaught e
  end.

(** The [custom_checks] argument of [update_product]: the update sets
    nothing but [stock], or the user ranks at least as a manager. *)
Definition custom_checks (product : ProductUpdate) (current_user : UserRead) : bool :=
  negb (existsb (fun k => negb (String.eqb k "stock")) (set_keys product))
  || (hierarchy_of current_user <=? get_default_hierarchy (Value MANAGER)).

(** [update_product]. *)
Definition update_product (product_id : Z) (product : ProductUpdate)
    (current_user : UserRead) (table : gmap Z BaseProduct)
    : response ProductResponse * gmap Z BaseProduct :=
  match authorize_user current_user operation_scopes
          (get_default_hierarchy (Member COLLABORATOR))
          (Some (custom_checks product current_user)) with
  | Returned _ =>
      match find_product table product_id current_user with
      | None => (HTTPException 404 "Product not found", table)
      | Some db_product =>
          let db_product :=
            stamp_update (user_id_of current_user) now (apply_update product db_product) in
          if refused (base.delete product_id table) db_product
          then (Uncaught IntegrityError, table)
          else (respond db_product, <[product_id := db_product]> table)
      end
  | HTTPException status_code detail => (HTTPException status_code detail, table)
  | Uncaught e => (Uncaught e, table)
  end.

(** [delete_product]; the answer is the dict [{"detail": "Product
    deleted"}]. *)
Definition delete_product (product_id : Z) (current_user : UserRead)
    (table : gmap Z BaseProduct) : response string * gmap Z BaseProduct :=
  match authorize_user current_user operation_scopes
          (get_default_hierarchy (Member MANAGER)) None with
  | Returned _ =>
      match find_product table product_id current_user with
      | None => (HTTPException 404 "Product not found", table)
      | Some _ => (Returned "Product deleted", base.delete product_id table)
      end
  | HTTPException status_code detail => (HTTPException status_code detail, table)
  | Uncaught e => (Uncaught e, table)
  end.

(** The row belongs to the enterprise of the user. *)
Definition owned_by (current_user : UserRead) (p : BaseProduct) : Prop :=
  enterprise_id p = enterprise_of current_user.

End Endpoints.
End Products.

(** ** More sample data *)

Module Cases.

(** No session at the first two calls, one at the third, on which the
    callback returns. *)
Definition recovering (i : nat) : Loop.attempt unit :=
  Loop.mkAttempt
    (match i with
     | O | Datatypes.S O => Ok None
     | _ => Ok (Some ())
     end)
    (fun s => (Ok (), s))
    (fun _ => true).

Definition envelope (kind scope : string) (payload : json) : jdict :=
  [("event", JStr kind); ("event_scope", JStr scope); ("data", payload);
   ("origin", JStr "rh_service"); ("start_date", JStr "2024-05-17T12:00:00")].

Definition envelope_text (kind scope payload : string) : string :=
  "{" ++ Sample.quoted "event" ++ ": " ++ Sample.quoted kind ++ ", "
      ++ Sample.quoted "event_scope" ++ ": " ++ Sample.quoted scope ++ ", "
      ++ Sample.quoted "data" ++ ": " ++ payload ++ ", "
      ++ Sample.quoted "origin" ++ ": " ++ Sample.quoted "rh_service" ++ ", "
      ++ Sample.quoted "start_date" ++ ": " ++ Sample.quoted "2024-05-17T12:00:00" ++ "}".

Definition id_5_text : string := "{" ++ Sample.quoted "id" ++ ": 5}".

(** A user.deleted message for user 5, once in scope and once not. *)
Definition delete_5_message : string := envelope_text "user.deleted" "PATRIMONIAL" id_5_text.
Definition delete_5_object : jdict :=
  envelope "user.deleted" "PATRIMONIAL" (JObj [("id", JInt 5)]).
Definition foreign_message : string := envelope_text "user.deleted" "HUMAN_RESOURCE" id_5_text.
Definition foreign_object : jdict :=
  envelope "user.deleted" "HUMAN_RESOURCE" (JObj [("id", JInt 5)]).

(** A JSON array that lists the five names. *)
Definition names_message : string :=
  "[" ++ Sample.quoted "event" ++ ", " ++ Sample.quoted "event_scope" ++ ", "
      ++ Sample.quoted "data" ++ ", " ++ Sample.quoted "origin" ++ ", "
      ++ Sample.quoted "start_date" ++ "]".
Definition names_array : json :=
  JArr [JStr "event"; JStr "event_scope"; JStr "data"; JStr "origin"; JStr "start_date"].

(** A decoder that knows these texts. *)
Definition json_loads (m : string) : option json :=
  if String.eqb m delete_5_message then Some (JObj delete_5_object)
  else if String.eqb m foreign_message then Some (JObj foreign_object)
  else if String.eqb m names_message then Some names_array
  else None.

Definition event_of (kind scope : string) (payload snapshot : json) : UpdateEvent :=
  mkUpdateEvent (JStr kind) (JStr scope) payload Sample.noon (JStr "rh_service")
    JNull snapshot.

Definition delete_user_5 : UpdateEvent :=
  event_of "user.deleted" "PATRIMONIAL" (JObj [("id", JInt 5)]) JNull.


(** The payload of the update test of the repository: no role, a scope by
    [scope_id], a new name and address. *)
Definition scope_update : UpdateEvent :=
  event_of "user.updated" "SELLS"
    (JObj [("id", JInt 5); ("enterprise_id", JInt 1); ("role_id", JNull);
           ("role_name", JNull); ("scope_id", JInt 3); ("scope_name", JNull);
           ("username", JStr "updateduser");
           ("email", JStr "updatedemail@test.mail.com")])
    (Sample.snapshot "SELLS").

Definition acme : Enterprise :=
  mkEnterprise (Some 1) (JStr "TestEnterprise") (JStr "testenterprise@test.mail.com") JNull.

(** The sample store with its enterprise. *)
Definition store : Store.t :=
  Store.mk (Store.users Sample.store) (Store.roles Sample.store)
    (Store.scopes Sample.store) {[1 := acme]}.

Definition delete_enterprise_1 : UpdateEvent :=
  event_of "enterprise.deleted" "ALL" (JObj [("id", JInt 1)]) JNull.

Definition update_enterprise_1 : UpdateEvent :=
  event_of "enterprise.updated" "ALL"
    (JObj [("id", JInt 1); ("name", JStr "UpdatedEnterprise")]) JNull.

Definition create_enterprise_2 : UpdateEvent :=
  event_of "enterprise.created" "ALL"
    (JObj [("id", JInt 2); ("name", JStr "NewEnterprise");
           ("accountable_email", JStr "newenterprise@test.mail.com");
           ("roles", JArr [JObj [("id", JInt 11); ("name", JStr "Test Role")]]);
           ("scopes", JArr [JObj [("id", JInt 12); ("name", JStr "Test Scope")]])])
    JNull.

(** The product endpoints: two users of two enterprises, a table with one
    product each, an authorization that lets everybody through, a database
    that accepts every row, and a response that refuses a negative cost. *)
Record user : Type := mkUser_ {
  uid : option Z;
  enterprise : option Z;
  hierarchy : Z
}.

Definition alice : user := mkUser_ (Some 5) (Some 1) 1.
Definition bob : user := mkUser_ (Some 6) (Some 2) 3.

Definition authorize_user (u : user) (scopes : list string) (order : Z)
    (custom : option bool) : Products.response unit :=
  if (hierarchy u <=? order) && default true custom
  then Products.Returned ()
  else Products.HTTPException 403 "Forbidden".

Definition get_default_hierarchy (r : Products.role_ref) : Z :=
  match r with
  | Products.Member Products.OWNER | Products.Value Products.OWNER => 1
  | Products.Member Products.MANAGER | Products.Value Products.MANAGER => 2
  | Products.Member Products.COLLABORATOR | Products.Value Products.COLLABORATOR => 3
  end.

Definition refused (table : gmap Z Products.BaseProduct) (p : Products.BaseProduct)
    : bool := false.

Definition ProductResponse_new (p : Products.BaseProduct) : res Products.BaseProduct :=
  match Products.cost p with
  | Some c => if Qle_bool 0 c then Ok p else Raise ValidationError
  | None => Raise ValidationError
  end.

Definition chair : Products.BaseProduct :=
  Products.mkBaseProduct (Some 1) (Some "Test Product") (Some (10 # 1))
    (Some "A product for testing purposes") (Some 10) (Some 1) (Some (22 # 1))
    (Some Sample.noon) None None (Some 5) None.

Definition desk : Products.BaseProduct :=
  Products.mkBaseProduct (Some 2) (Some "Test Product 2") (Some (8 # 1))
    None (Some 10) (Some 2) (Some (12 # 1)) (Some Sample.noon) None None (Some 6) None.

Definition products : gmap Z Products.BaseProduct := {[1 := chair; 2 := desk]}.

Definition rename : Products.ProductUpdate :=
  Products.mkProductUpdate None (Some (Some "Updated Product Name")) None None
    (Some (Some "Updated Description")).

Definition underpriced : Products.ProductCreate :=
  Products.mkProductCreate (-1 # 1) "Test Product 3" None 10.

End Cases.

Section UpdateEventClass.

(** The library parsers.  [json_loads m = None] stands for
    [json.JSONDecodeError]; [fromisoformat s = None] for the [ValueError]
    of [datetime.datetime.fromisoformat]; [now] is what
    [datetime.datetime.now()] answers. *)
Variable json_loads : string → option json.
Variable fromisoformat : string → option datetime.
Variable now : datetime.

(** The constructors of the model classes, which validate their keyword
    arguments ([app/models] is not among the sources).  [UserRead] is the
    validated snapshot; the code reads its [scope.name] and hands its
    [model_dump()] to [User]. *)
Variable Role_new : jdict → res Role.
Variable Scope_new : jdict → res Scope.
Variable Enterprise_new : jdict → res Enterprise.
Variable User_new : jdict → res User.
Variable UserRead : Type.
Variable UserRead_new : jdict → res UserRead.
Variable read_scope_name : UserRead → string.
Variable User_of_read : UserRead → res User.
(** [EnterpriseUpdate] built from the unpacked dict, then
    [model_dump(exclude_none=True)]. *)
Variable EnterpriseUpdate_new : jdict → res jdict.

(** *** 4.1 The envelope parser *)

(** [datetime.datetime.fromisoformat(v)]: [TypeError] unless [v] is a
    string, [ValueError] when the string does not parse. *)
Definition py_fromisoformat (v : json) : res datetime :=
  match v with
  | JStr s =>
      match fromisoformat s with
      | Some t => Ok t
      | None => Raise ValueError
      end
  | _ => Raise TypeError
  end.

Definition required_fields : list string :=
  ["event"; "event_scope"; "data"; "origin"; "start_date"].

(** [UpdateEvent.create_from_message]; [Ok None] is [return None]. *)
Definition create_from_message (message : string) : res (option UpdateEvent) :=
  match json_loads message with
  | None => Ok None
  | Some message_dict =>
      missing ← Py.any_map
                  (fun x => negb <$> Py.contains x message_dict)
                  required_fields;
      if missing : bool then Ok None
      else
        ev ← Py.getitem message_dict "event";
        sc ← Py.getitem message_dict "event_scope";
        da ← Py.getitem message_dict "data";
        sd ← Py.getitem message_dict "start_date";
        t ← py_fromisoformat sd;
        og ← Py.getitem message_dict "origin";
        us ← Py.get message_dict "update_scope";
        fu ← Py.get message_dict "user";
        Ok (Some (mkUpdateEvent ev sc da t og us fu))
  end.

(** *** 4.2 The scope filter *)

Definition user_events : list string :=
  [UserEvents.USER_CREATED; UserEvents.USER_UPDATED; UserEvents.USER_DELETED].
Definition enterprise_events : list string :=
  [EnterpriseEvents.ENTERPRISE_CREATED; EnterpriseEvents.ENTERPRISE_UPDATED;
   EnterpriseEvents.ENTERPRISE_DELETED].

(** [UpdateEvent._check_valid_user_event] (the diagnostics are left out). *)
Definition _check_valid_user_event (self : UpdateEvent) : bool :=
  if existsb (Py.eq_str (event self)) (user_events ++ enterprise_events) then
    let check_update_scope :=
      match update_scope self with
      | JNull => JStr EmptyString
      | v => v
      end in
    existsb id
      [ Py.eq_str (event_scope self) DefaultScope.PATRIMONIAL;
        Py.eq_str (event_scope self) DefaultScope.ALL;
        Py.eq_str check_update_scope DefaultScope.PATRIMONIAL;
        Py.eq_str check_update_scope DefaultScope.ALL ]
  else false.

(** *** 4.4 The entity mutators: the [db_access] closures *)

Import Session.

(** [x in (a, b, ...)] for a string [x] and a tuple of any values. *)
Definition str_in_tuple (x : string) (t : list json) : bool :=
  existsb (fun v => Py.eq_str v x) t.

(** [list(map(f, v))] where [f] unpacks its argument into the
    constructor [C]. *)
Definition build_all {A : Type} (C : jdict → res A) (v : json) : res (list A) :=
  xs ← Py.iterate v;
  mapM (fun r => Py.kwargs r ≫= C) xs.

(** [datetime.datetime.fromisoformat(date_created) if date_created is not
    None else datetime.datetime.now()]. *)
Definition created_at_or_now (date_created : json) : res datetime :=
  match date_created with
  | JNull => Ok now
  | v => py_fromisoformat v
  end.

(** [create_user.db_access]. *)
Definition create_user_db_access (self : UpdateEvent) : M unit :=
  try_except
    (read_data ← lift (Py.copy (data self));
     '(r, read_data) ← lift (Py.pop read_data "role");
     role ← lift (Py.kwargs r ≫= Role_new);
     '(s, read_data) ← lift (Py.pop read_data "scope");
     scope ← lift (Py.kwargs s ≫= Scope_new);
     '(e, read_data) ← lift (Py.pop read_data "enterprise");
     enterprise ← lift (Py.kwargs e ≫= Enterprise_new);
     date_created ← lift (Py.get read_data "created_at");
     with_session
       (user ← lift (Py.kwargs read_data ≫= User_new);
        let user := set_role role user in
        let user := set_scope scope user in
        let user := set_enterprise enterprise user in
        t ← lift (created_at_or_now date_created);
        let user := set_created_at t user in
        add Transient (EUser user);;
        commit))
    (fun _ => mret ()).

(** [delete_user.db_access]: there is no [try] around the body. *)
Definition delete_user_db_access (self : UpdateEvent) : M unit :=
  with_session
    (ident ← lift (Py.getitem (data self) "id");
     user ← get_user ident;
     match user with
     | Some u => delete (EUser u);; commit
     | None => mret ()
     end).

(** [delete_enterprise.db_access]: there is no [try] around the body. *)
Definition delete_enterprise_db_access (self : UpdateEvent) : M unit :=
  with_session
    (ident ← lift (Py.getitem (data self) "id");
     enterprise ← get_enterprise ident;
     match enterprise with
     | Some e => delete (EEnterprise e [] []);; commit
     | None => mret ()
     end).

(** [create_enterprise.db_access]; the two [self.data.get] calls stand
    before the [try]. *)
Definition create_enterprise_db_access (self : UpdateEvent) : M unit :=
  _ ← lift (Py.get (data self) "name");
  _ ← lift (Py.get (data self) "id");
  try_except
    (with_session
       (copy_data ← lift (Py.copy (data self));
        '(rs, copy_data) ← lift (Py.pop copy_data "roles");
        roles ← lift (build_all Role_new rs);
        '(ss, copy_data) ← lift (Py.pop copy_data "scopes");
        scopes ← lift (build_all Scope_new ss);
        enterprise ← lift (Py.kwargs copy_data ≫= Enterprise_new);
        add Transient (EEnterprise enterprise roles scopes);;
        commit))
    (fun _ => mret ()).

(** [setattr(enterprise, key, value)] under [hasattr(enterprise, key)],
    for the columns of the data model. *)
Definition enterprise_setattr (e : Enterprise) (kv : string * json) : Enterprise :=
  let '(key, value) := kv in
  if String.eqb key "name" then
    mkEnterprise (enterprise_id e) value (accountable_email e) (activity_type e)
  else if String.eqb key "accountable_email" then
    mkEnterprise (enterprise_id e) (enterprise_name e) value (activity_type e)
  else if String.eqb key "activity_type" then
    mkEnterprise (enterprise_id e) (enterprise_name e) (accountable_email e) value
  else e.

(** [update_enterprise.db_access]; the handler formats [self.data["name"]]
    and [self.data["id"]] into its message. *)
Definition update_enterprise_db_access (self : UpdateEvent) : M unit :=
  try_except
    (with_session
       (enterprise_update ← lift (Py.kwargs (data self) ≫= EnterpriseUpdate_new);
        ident ← lift (Py.getitem (data self) "id");
        enterprise ← get_enterprise ident;
        match enterprise with
        | Some e =>
            add Persistent
              (EEnterprise (fold_left enterprise_setattr enterprise_update e) [] []);;
            commit
        | None => mret ()
        end))
    (fun _ =>
       _ ← lift (Py.getitem (data self) "name");
       _ ← lift (Py.getitem (data self) "id");
       mret ()).

(** The test that guards the body of [update_user.db_access]; [and]
    evaluates left to right and stops at the first falsy operand. *)
Definition update_user_guard (self : UpdateEvent) : res bool :=
  match full_user self with
  | JNull => Ok false
  | _ =>
      eid ← Py.get (data self) "enterprise_id";
      if Py.truthy eid then
        i ← Py.get (data self) "id";
        Ok (Py.truthy i)
      else Ok false
  end.

(** The [if self.data["role_id"]: ... elif "role_name" in self.data: ...]
    statement of [update_user.db_access]: the values bound to [role] and
    [scope] after it.  The scope is looked up inside the [elif] branch. *)
Definition resolve_role_scope (self : UpdateEvent) : M (option Role * option Scope) :=
  rid ← lift (Py.getitem (data self) "role_id");
  if Py.truthy rid then
    role ← get_role rid;
    mret (role, None)
  else
    has_role_name ← lift (Py.contains "role_name" (data self));
    if has_role_name : bool then
      eid ← lift (Py.getitem (data self) "enterprise_id");
      rn ← lift (Py.getitem (data self) "role_name");
      role ← first_role_by_name eid rn;
      has_scope_id ← lift (Py.contains "scope_id" (data self));
      scope ← (if has_scope_id : bool then
                 sid ← lift (Py.getitem (data self) "scope_id");
                 get_scope sid
               else
                 has_scope_name ← lift (Py.contains "scope_name" (data self));
                 if has_scope_name : bool then
                   eid ← lift (Py.getitem (data self) "enterprise_id");
                   sn ← lift (Py.getitem (data self) "scope_name");
                   first_scope_by_name eid sn
                 else mret None);
      mret (role, scope)
    else mret (None, None).

(** [if key in self.data: db_user.attr = self.data[key]]. *)
Definition assign_if_present (self : UpdateEvent) (key : string)
    (set : json → User → User) (db_user : User) : M User :=
  has ← lift (Py.contains key (data self));
  if has : bool then
    v ← lift (Py.getitem (data self) key);
    mret (set v db_user)
  else mret db_user.

(** [update_user.db_access]. *)
Definition update_user_db_access (self : UpdateEvent) : M unit :=
  try_except
    (go ← lift (update_user_guard self);
     if go : bool then
       with_session
         (user_read ← lift (Py.kwargs (full_user self) ≫= UserRead_new);
          ident ← lift (Py.getitem (data self) "id");
          db_user ← get_user ident;
          match db_user with
          | Some db_user =>
              if negb (str_in_tuple (read_scope_name user_read)
                         [JStr DefaultScope.ALL; JStr DefaultScope.SELLS]) then
                delete (EUser db_user);;
                commit
              else
                '(role, scope) ← resolve_role_scope self;
                let db_user := from_option (fun r => set_role r db_user) db_user role in
                let db_user := from_option (fun x => set_scope x db_user) db_user scope in
                db_user ← assign_if_present self "username" set_username db_user;
                db_user ← assign_if_present self "email" set_email db_user;
                db_user ← assign_if_present self "full_name" set_full_name db_user;
                add Persistent (EUser db_user);;
                commit;;
                ident ← lift (Py.getitem (data self) "id");
                user_v ← get_user ident;
                match user_v with
                | Some _ => mret ()
                | None => raise AssertionError
                end
          | None =>
              if str_in_tuple (read_scope_name user_read)
                   [JStr DefaultScope.ALL;
                    JBool (String.eqb (read_scope_name user_read) DefaultScope.SELLS)]
              then
                user ← lift (User_of_read user_read);
                add Transient (EUser user);;
                commit
              else mret ()
          end)
     else mret ())
    (fun _ => mret ()).

(** *** 4.3 Dispatch *)

(** The closure [update_table] hands to the apply loop, in the order of
    its [if]/[elif] chain. *)
Definition mutator (self : UpdateEvent) : option (M unit) :=
  let kind k := Py.eq_str (event self) k in
  if kind EnterpriseEvents.ENTERPRISE_CREATED then Some (create_enterprise_db_access self)
  else if kind EnterpriseEvents.ENTERPRISE_UPDATED then Some (update_enterprise_db_access self)
  else if kind EnterpriseEvents.ENTERPRISE_DELETED then Some (delete_enterprise_db_access self)
  else if kind UserEvents.USER_CREATED then Some (create_user_db_access self)
  else if kind UserEvents.USER_DELETED then Some (delete_user_db_access self)
  else if kind UserEvents.USER_UPDATED then Some (update_user_db_access self)
  else None.

(** What the apply loop meets when [get_db] behaves as [provider] and the
    callback is [cb]. *)
Definition attempts (provider : nat → res (option Session.t))
    (active : nat → Session.t → bool) (cb : M unit) (i : nat) : Loop.attempt Session.t :=
  Loop.mkAttempt (provider i) cb (active i).

(** [UpdateEvent.update_table]. *)
Definition update_table (fuel : nat) (provider : nat → res (option Session.t))
    (active : nat → Session.t → bool) (self : UpdateEvent)
    : option (res unit * option Session.t) :=
  if negb (_check_valid_user_event self) then Some (Ok (), None)
  else
    match mutator self with
    | Some cb =>
        '(r, st) ← Loop.__db_access_loop Session.close Session.rollback fuel
                     (attempts provider active cb) Loop.default_retries;
        Some (r, Loop.db st)
    | None => Some (Ok (), None)
    end.

(** *** The vocabulary of the specification *)

(** One of the six recognized event kinds. *)
Definition recognized_kind (v : json) : Prop :=
  v = JStr "enterprise.created" ∨ v = JStr "enterprise.updated"
  ∨ v = JStr "enterprise.deleted" ∨ v = JStr "user.created"
  ∨ v = JStr "user.updated" ∨ v = JStr "user.deleted".

(** A scope tag that makes an event relevant. *)
Definition patrimonial_or_all (v : json) : Prop :=
  v = JStr "PATRIMONIAL" ∨ v = JStr "ALL".

(** [update_scope], treated as the empty string when absent. *)
Definition update_scope_or_empty (self : UpdateEvent) : json :=
  match update_scope self with
  | JNull => JStr EmptyString
  | v => v
  end.

(** The decoded message is a JSON value without fields of its own:
    [null], a boolean or a number. *)
Definition scalar (v : json) : bool :=
  match v with
  | JNull | JBool _ | JInt _ | JFloat _ => true
  | JStr _ | JArr _ | JObj _ => false
  end.

(** A decoded object carries all five required fields. *)
Definition has_required_fields (d : jdict) : Prop :=
  Forall (fun k => Py.dict_mem k d = true) required_fields.

(** The value is a string that [fromisoformat] accepts. *)
Definition parseable_timestamp (v : json) : Prop :=
  ∃ s t, v = JStr s ∧ fromisoformat s = Some t.

(** What is left of the [create_user] payload once [role], [scope] and
    [enterprise] were popped: the keyword arguments of [User]. *)
Definition user_fields (d : jdict) : jdict :=
  Py.dict_remove "enterprise" (Py.dict_remove "scope" (Py.dict_remove "role" d)).

(** *** More of the class *)

(** [UpdateEvent.process_message] (the diagnostics are left out): the
    result and the session the apply loop holds at the end, if any. *)
Definition process_message (fuel : nat) (provider : nat → res (option Session.t))
    (active : nat → Session.t → bool) (message : string)
    : option (res unit * option Session.t) :=
  match create_from_message message with
  | Raise e => Some (Raise e, None)
  | Ok None => Some (Ok (), None)
  | Ok (Some event) => update_table fuel provider active event
  end.

(** All five required names occur in the decoded value, in the sense of
    Python's [in]. *)
Definition names_all_contained (v : json) : bool :=
  forallb
    (fun k => match Py.contains k v with Ok b => b | Raise _ => false end)
    required_fields.

(** *** Which tables a piece of session code can reach *)

(** The operation is on a user object. *)
Definition user_op (op : pending_op) : bool :=
  match op with
  | Insert (EUser _) | Update (EUser _) | Delete (EUser _) => true
  | _ => false
  end.

(** The role, scope and enterprise tables are the same. *)
Definition same_catalog (a b : Store.t) : Prop :=
  Store.roles a = Store.roles b
  ∧ Store.scopes a = Store.scopes b
  ∧ Store.enterprises a = Store.enterprises b.

(** Session code that only queues operations of the kind [ok], and whose
    commits therefore keep the tables related by [frame]. *)
Definition confined (ok : pending_op → bool) (frame : Store.t → Store.t → Prop)
    {A : Type} (m : M A) : Prop :=
  ∀ s, forallb ok (pending s) = true →
       forallb ok (pending (snd (m s))) = true
       ∧ frame (committed s) (committed (snd (m s))).

(** Session code that leaves no operation waiting when it found none. *)
Definition quiet {A : Type} (m : M A) : Prop :=
  ∀ s, pending s = [] → pending (snd (m s)) = [].

Definition is_user (e : entity) : bool :=
  match e with EUser _ => true | _ => false end.

Definition is_enterprise (e : entity) : bool :=
  match e with EEnterprise _ _ _ => true | _ => false end.

(** Session code that passes only objects of the kind [kind] to
    [session.add] and [session.delete]. *)
Definition hands_over (kind : entity → bool) {A : Type} (m : M A) : Prop :=
  ∀ s, forallb kind (added s) = true → forallb kind (deleted s) = true →
       forallb kind (added (snd (m s))) = true
       ∧ forallb kind (deleted (snd (m s))) = true.

(** ** Properties *)

(** *** Python values *)

Lemma eq_str_true (v : json) (s : string) :
  Py.eq_str v s = true ↔ v = JStr s.
Proof.
  destruct v; simpl; try (split; [discriminate | intros [=]]).
  rewrite String.eqb_eq. split; [intros -> | intros [=]]; congruence.
Qed.

Lemma dict_mem_lookup (k : string) (d : jdict) :
  Py.dict_mem k d = true ↔ ∃ v, Py.dict_lookup k d = Some v.
Proof.
  unfold Py.dict_mem. destruct (Py.dict_lookup k d) as [v|].
  - split; [eauto | done].
  - split; [done | intros [v [=]]].
Qed.

Lemma getitem_present (d : jdict) (k : string) :
  Py.dict_mem k d = true → ∃ v, Py.getitem (JObj d) k = Ok v ∧ Py.dict_lookup k d = Some v.
Proof.
  intros [v Hv]%dict_mem_lookup. exists v. simpl. by rewrite Hv.
Qed.

(** *** The scope filter *)

Ltac pick_disjunct :=
  repeat match goal with
         | |- _ ∨ _ => (left; reflexivity) || right
         end;
  reflexivity.

Lemma recognized_kind_existsb (v : json) :
  existsb (Py.eq_str v) (user_events ++ enterprise_events) = true ↔ recognized_kind v.
Proof.
  unfold recognized_kind. rewrite existsb_exists. split.
  - intros (k & Hin & ->%eq_str_true). vm_compute in Hin.
    repeat destruct Hin as [<- | Hin]; try pick_disjunct. destruct Hin.
  - intros H.
    assert (∃ k, v = JStr k ∧ In k (user_events ++ enterprise_events)) as (k & -> & Hin).
    { destruct H as [->|[->|[->|[->|[->| ->]]]]]; eexists; (split; [reflexivity |]);
        vm_compute; pick_disjunct. }
    exists k. split; [done | by apply eq_str_true].
Qed.

(** C1. The scope filter answers true exactly for an event of one of the
    six recognized kinds whose [event_scope], or whose [update_scope] read
    as the empty string when absent, is PATRIMONIAL or ALL.  A user.updated
    event with scope SELLS and update scope PATRIMONIAL is relevant; one
    with scope HUMAN_RESOURCE and no update scope is not. *)
Theorem check_valid_user_event_spec :
  (∀ self : UpdateEvent,
     _check_valid_user_event self = true ↔
     recognized_kind (event self)
     ∧ (patrimonial_or_all (event_scope self)
        ∨ patrimonial_or_all (update_scope_or_empty self)))
  ∧ (∀ d t o fu,
       _check_valid_user_event
         (mkUpdateEvent (JStr "user.updated") (JStr "SELLS") d t o
            (JStr "PATRIMONIAL") fu) = true)
  ∧ (∀ d t o fu,
       _check_valid_user_event
         (mkUpdateEvent (JStr "user.updated") (JStr "HUMAN_RESOURCE") d t o
            JNull fu) = false).
Proof.
  split; [| split; reflexivity].
  intros self. unfold _check_valid_user_event, patrimonial_or_all.
  fold (update_scope_or_empty self).
  destruct (existsb _ (user_events ++ enterprise_events)) eqn:Hk.
  - apply recognized_kind_existsb in Hk.
    cbn [existsb id]. rewrite !orb_true_iff, !eq_str_true.
    unfold DefaultScope.PATRIMONIAL, DefaultScope.ALL. intuition discriminate.
  - split; [discriminate |]. intros [Hr _].
    apply recognized_kind_existsb in Hr. congruence.
Qed.

(** *** The envelope parser *)

Lemma create_from_message_decode_failure (message : string) :
  json_loads message = None → create_from_message message = Ok None.
Proof. unfold create_from_message. by intros ->. Qed.

Lemma any_missing_object (d : jdict) (ks : list string) :
  Py.any_map (fun x => negb <$> Py.contains x (JObj d)) ks
  = Ok (existsb (fun k => negb (Py.dict_mem k d)) ks).
Proof.
  induction ks as [|k ks IH]; [done |].
  cbn. destruct (Py.dict_mem k d); cbn; [exact IH | done].
Qed.

Lemma create_from_message_missing_field (message : string) (d : jdict) :
  json_loads message = Some (JObj d) →
  ¬ has_required_fields d →
  create_from_message message = Ok None.
Proof.
  intros Hd Hmiss. unfold create_from_message. rewrite Hd, any_missing_object.
  destruct (existsb _ required_fields) eqn:He; [done |].
  exfalso. apply Hmiss. unfold has_required_fields.
  rewrite List.Forall_forall. intros k Hk.
  destruct (Py.dict_mem k d) eqn:Hm; [done |].
  assert (existsb (fun k => negb (Py.dict_mem k d)) required_fields = true) as Ht.
  { apply existsb_exists. exists k. split; [exact Hk | by rewrite Hm]. }
  congruence.
Qed.

(** C3. A message whose text decodes to [null], a boolean or a number
    decodes and carries none of the five fields; the membership test on it
    raises [TypeError], which leaves [create_from_message]. *)
Theorem create_from_message_scalar_raises (message : string) (v : json) :
  json_loads message = Some v →
  scalar v = true →
  create_from_message message = Raise TypeError.
Proof.
  intros Hd Hs. unfold create_from_message. rewrite Hd.
  destruct v; try discriminate; reflexivity.
Qed.

(** C4. A message that decodes to an object with all five required fields
    whose [start_date] is not a parseable timestamp makes
    [create_from_message] raise: [TypeError] when the value is not a
    string, [ValueError] when the string does not parse. *)
Theorem create_from_message_bad_start_date (message : string) (d : jdict) (sd : json) :
  json_loads message = Some (JObj d) →
  has_required_fields d →
  Py.dict_lookup "start_date" d = Some sd →
  ¬ parseable_timestamp sd →
  create_from_message message = Raise TypeError
  ∨ create_from_message message = Raise ValueError.
Proof.
  intros Hd Hreq Hsd Hbad. unfold create_from_message. rewrite Hd, any_missing_object.
  assert (existsb (fun k => negb (Py.dict_mem k d)) required_fields = false) as ->.
  { apply not_true_is_false. intros (k & Hk & Hm)%existsb_exists.
    unfold has_required_fields in Hreq. rewrite List.Forall_forall in Hreq.
    rewrite (Hreq k Hk) in Hm. discriminate. }
  unfold has_required_fields in Hreq. rewrite List.Forall_forall in Hreq.
  destruct (getitem_present d "event") as (ev & -> & _); [apply Hreq; simpl; pick_disjunct |].
  destruct (getitem_present d "event_scope") as (sc & -> & _); [apply Hreq; simpl; pick_disjunct |].
  destruct (getitem_present d "data") as (da & -> & _); [apply Hreq; simpl; pick_disjunct |].
  destruct (getitem_present d "start_date") as (sd' & -> & Hsd');
    [apply Hreq; simpl; pick_disjunct |].
  assert (sd' = sd) as -> by congruence.
  cbn.
  destruct sd; cbn; auto.
  destruct (fromisoformat s) as [t|] eqn:Ht; cbn; auto.
  exfalso. apply Hbad. by exists s, t.
Qed.

(** *** The apply loop *)

Section LoopProperties.

Context {S : Type} (close rollback : S → S).

Implicit Types (st : Loop.state S) (a : Loop.attempt S) (env : nat → Loop.attempt S).

(** A pass whose acquisition raises while [db] is empty changes neither
    [db] nor the counter. *)
Lemma pass_failing_without_session a st e :
  Loop.acquire a = Raise e →
  Loop.db st = None →
  ∃ st', Loop.pass close rollback a st = Loop.Continue st'
         ∧ Loop.db st' = None
         ∧ Loop.counter st' = Loop.counter st
         ∧ Loop.acquisitions st' = Datatypes.S (Loop.acquisitions st).
Proof.
  intros Ha Hdb. unfold Loop.pass. rewrite Ha. unfold Loop.handler. cbn.
  rewrite Hdb. eexists. split; [reflexivity |]. cbn.
  split; [done | split; [done |]]. unfold Loop.acquisitions. cbn.
  rewrite !List.filter_app, !length_app. cbn. lia.
Qed.

Lemma unroll_always_failing e cb act (n : nat) :
  ∀ i st,
    Loop.db st = None →
    0 < Loop.counter st →
    let st' := Loop.unroll close rollback n (Loop.always_failing e cb act) i st in
    Loop.db st' = None
    ∧ Loop.counter st' = Loop.counter st
    ∧ Loop.acquisitions st' = (Loop.acquisitions st + n)%nat.
Proof.
  induction n as [|n IH]; intros i st Hdb Hc; cbn [Loop.unroll].
  - split; [done | split; [done | lia]].
  - assert ((Loop.counter st >? 0) = true) as -> by lia.
    destruct (pass_failing_without_session (Loop.always_failing e cb act i) st e)
      as (st1 & -> & Hdb1 & Hc1 & Ha1); [done | done |].
    destruct (IH (Datatypes.S i) st1) as (? & ? & ?); [done | lia |].
    split; [done | split; [congruence | lia]].
Qed.

Lemma while_loop_always_failing e cb act (fuel : nat) :
  ∀ i st,
    Loop.db st = None →
    0 < Loop.counter st →
    Loop.while_loop close rollback fuel (Loop.always_failing e cb act) i st = None.
Proof.
  induction fuel as [|fuel IH]; intros i st Hdb Hc; cbn [Loop.while_loop];
    assert ((Loop.counter st >? 0) = true) as -> by lia; [done |].
  destruct (pass_failing_without_session (Loop.always_failing e cb act i) st e)
    as (st1 & -> & Hdb1 & Hc1 & _); [done | done |].
  apply IH; [done | lia].
Qed.

(** C2. With a session provider whose acquisition raises on every call,
    no number of passes ends [__db_access_loop] with its default budget
    of 5: after [n] passes the loop made [n] acquisition attempts, holds
    no session, and its counter still stands at 5. *)
Theorem db_access_loop_failing_provider_never_ends e cb act (n : nat) :
  Loop.__db_access_loop close rollback n (Loop.always_failing e cb act)
    Loop.default_retries = None
  ∧ Loop.acquisitions
      (Loop.unroll close rollback n (Loop.always_failing e cb act) 0%nat
         (Loop.init Loop.default_retries)) = n
  ∧ Loop.counter
      (Loop.unroll close rollback n (Loop.always_failing e cb act) 0%nat
         (Loop.init Loop.default_retries)) = 5.
Proof.
  split.
  - unfold Loop.__db_access_loop.
    rewrite while_loop_always_failing; [done | done | done].
  - destruct (unroll_always_failing e cb act n 0%nat (Loop.init Loop.default_retries))
      as (_ & Hc & Ha); [done | done |].
    split; [exact Ha | exact Hc].
Qed.

(** When no acquisition raises, every pass that does not end the loop
    consumes one unit of the budget, so [retries] passes suffice. *)
Lemma while_loop_ends_when_acquisition_returns env (fuel : nat) :
  (∀ i, ∃ o, Loop.acquire (env i) = Ok o) →
  ∀ i st,
    Loop.counter st ≤ Z.of_nat fuel →
    ∃ st', Loop.while_loop close rollback fuel env i st = Some st'
           ∧ (Z.of_nat (Loop.acquisitions st')
              ≤ Z.of_nat (Loop.acquisitions st) + Z.max 0 (Loop.counter st)).
Proof.
  intros Hacq. induction fuel as [|fuel IH]; intros i st Hfuel.
  - cbn [Loop.while_loop]. assert ((Loop.counter st >? 0) = false) as -> by lia.
    eexists; split; [reflexivity | lia].
  - cbn [Loop.while_loop].
    destruct (Loop.counter st >? 0) eqn:Hc; [| eexists; split; [reflexivity | lia]].
    destruct (Hacq i) as [o Ho]. unfold Loop.pass. rewrite Ho.
    destruct o as [s|].
    + destruct (Loop.callback (env i) s) as [[[]|e] s'].
      * destruct (Loop.is_active (env i) s');
          (eexists; split; [reflexivity |]);
          unfold Loop.acquisitions; cbn;
          rewrite <- !app_assoc, !List.filter_app, !length_app; cbn; lia.
      * unfold Loop.handler. cbn.
        destruct (Loop.is_active (env i) (rollback s'));
          (edestruct IH as (st' & -> & Hle); [| eexists; split; [reflexivity |]];
           [cbn; lia |]);
          revert Hle; unfold Loop.acquisitions; cbn;
          rewrite <- !app_assoc, !List.filter_app, !length_app; cbn; lia.
    + edestruct IH as (st' & -> & Hle); [| eexists; split; [reflexivity |]];
        [cbn; lia |].
      revert Hle. unfold Loop.acquisitions. cbn.
      rewrite <- !app_assoc, !List.filter_app, !length_app. cbn. lia.
Qed.

Lemma pass_invariant a st :
  0 < Loop.counter st →
  Loop.invariant st →
  match Loop.pass close rollback a st with
  | Loop.Continue st' | Loop.Break st' => Loop.invariant st'
  end.
Proof.
  intros Hc (Herr & Hzero & Hnone).
  unfold Loop.pass, Loop.handler, Loop.invariant, Loop.ever_acquired, Loop.last_caught
    in *.
  destruct (Loop.acquire a) as [[s|]|e]; cbn.
  - destruct (Loop.callback a s) as [[[]|e] s']; cbn.
    + destruct (Loop.is_active a s'); cbn;
        rewrite !fold_left_app, !existsb_app; cbn;
        rewrite ?orb_true_r; (split; [done | split; [lia | done]]).
    + destruct (Loop.is_active a (rollback s')); cbn;
        rewrite !fold_left_app, !existsb_app; cbn;
        rewrite ?orb_true_r; (split; [done | split; [by right | done]]).
  - rewrite !fold_left_app, !existsb_app. cbn. rewrite !orb_false_r.
    split; [done | split; [by left | done]].
  - destruct (Loop.db st) as [s|] eqn:Hdb; cbn.
    + destruct (Loop.is_active a (rollback s)); cbn;
        rewrite !fold_left_app, !existsb_app; cbn;
        rewrite ?orb_false_r;
        (split; [done | split; [by right |]]);
        intros Hn; by specialize (Hnone Hn).
    + rewrite !fold_left_app, !existsb_app. cbn. rewrite !orb_false_r.
      split; [done | split; [lia | done]].
Qed.

Lemma while_loop_invariant env (fuel : nat) :
  ∀ i st st',
    Loop.invariant st →
    Loop.while_loop close rollback fuel env i st = Some st' →
    Loop.invariant st'.
Proof.
  induction fuel as [|fuel IH]; intros i st st' Hinv; cbn [Loop.while_loop];
    destruct (Loop.counter st >? 0) eqn:Hc; try discriminate; try congruence.
  pose proof (pass_invariant (env i) st ltac:(lia) Hinv) as Hpass.
  destruct (Loop.pass close rollback (env i) st) as [st1|st1].
  - by apply IH.
  - congruence.
Qed.

Lemma init_invariant (retries : Z) : Loop.invariant (S := S) (Loop.init retries).
Proof. unfold Loop.invariant. cbn. auto. Qed.

(** C8. When [__db_access_loop] leaves its [while] with the counter at 0
    it raises: the generic "Failed to connect to the database" error when
    [db] is empty at that point, which is the case whenever no session
    was ever acquired, and otherwise the last error caught from a failed
    pass.  It never returns normally then. *)
Theorem db_access_loop_exhausted env (fuel : nat) (retries : Z)
    (r : res unit) st :
  Loop.__db_access_loop close rollback fuel env retries = Some (r, st) →
  Loop.counter st = 0 →
  (Loop.ever_acquired st = false → Loop.db st = None)
  ∧ (Loop.db st = None →
     r = Raise (PlainException "Failed to connect to the database"))
  ∧ (Loop.db st ≠ None →
     ∃ e, Loop.last_caught (Loop.trace st) = Some e ∧ r = Raise e)
  ∧ r ≠ Ok ().
Proof.
  unfold Loop.__db_access_loop. intros Hrun Hzero.
  destruct (Loop.while_loop close rollback fuel env 0%nat (Loop.init retries))
    as [st0|] eqn:Hloop; [| discriminate].
  cbn in Hrun. injection Hrun as <- ->.
  pose proof (while_loop_invariant env fuel _ _ _ (init_invariant retries) Hloop)
    as (Herr & Hz & Hnone).
  unfold Loop.after_loop. rewrite Hzero. cbn.
  split; [exact Hnone |].
  destruct (Loop.db st) as [s|] eqn:Hdb.
  - destruct (Hz Hzero) as [[=] | Hsome].
    destruct (Loop.err st) as [e|] eqn:He; [| done].
    split; [discriminate |]. split; [| discriminate].
    intros _. exists e. by rewrite <- Herr.
  - split; [done |]. split; [done | discriminate].
Qed.

End LoopProperties.

(** *** The entity mutators *)

(** Unfolds the plumbing of the two monads and computes. *)
Ltac run :=
  repeat (progress (unfold mbind, M_bind, res_bind, mret, M_ret, res_ret, lift,
                      raise, try_except, with_session, add, Session.delete,
                      commit, get_user, get_role, get_scope, get_enterprise, get_in;
                    cbn -[created_at_or_now default str_in_tuple String.eqb
                         assign_if_present resolve_role_scope])).

Lemma dict_lookup_remove_ne (k k' : string) (d : jdict) :
  k ≠ k' → Py.dict_lookup k (Py.dict_remove k' d) = Py.dict_lookup k d.
Proof.
  intros Hne. induction d as [|[k0 v] d IH]; [done |].
  cbn. destruct (String.eqb_spec k0 k') as [-> | Hk0]; cbn.
  - destruct (String.eqb_spec k' k) as [-> | _]; [done | exact IH].
  - destruct (String.eqb_spec k0 k); [done | exact IH].
Qed.

(** A body under [except Exception] with a handler that only prints never
    raises. *)
Lemma try_except_swallows (body : M unit) (s : Session.t) :
  fst (try_except body (fun _ => mret ()) s) = Ok ().
Proof.
  unfold try_except. destruct (body s) as [[[]|e] s']; reflexivity.
Qed.

Lemma create_user_never_raises (self : UpdateEvent) (s : Session.t) :
  fst (create_user_db_access self s) = Ok ().
Proof. apply try_except_swallows. Qed.

Lemma update_user_never_raises (self : UpdateEvent) (s : Session.t) :
  fst (update_user_db_access self s) = Ok ().
Proof. apply try_except_swallows. Qed.

(** Committing the insertion of one user touches the user table only. *)
Lemma insert_user_frame (u : User) (store store' : Store.t) :
  Store.insert_user u store = Ok store' →
  Store.roles store' = Store.roles store
  ∧ Store.scopes store' = Store.scopes store
  ∧ Store.enterprises store' = Store.enterprises store.
Proof.
  unfold Store.insert_user, Store.insert_row.
  destruct (user_id u) as [k|]; cbn.
  - destruct (Store.users store !! k); cbn; [discriminate |].
    intros [= <-]. done.
  - intros [= <-]. done.
Qed.

(** C10. When the payload of a user.created event builds (the nested
    [role], [scope] and [enterprise] objects, the user from the remaining
    fields, and the creation date), [create_user] passes exactly one object
    to [session.add]: the new user, whose foreign keys are the ids of the
    three objects.  The role, scope and enterprise tables are left as they
    were. *)
Theorem create_user_adds_only_the_user (self : UpdateEvent) (store : Store.t)
    (d rd sd ed : jdict) (role : Role) (scope : Scope) (enterprise : Enterprise)
    (user0 : User) (t : datetime) :
  data self = JObj d →
  Py.dict_lookup "role" d = Some (JObj rd) → Role_new rd = Ok role →
  Py.dict_lookup "scope" d = Some (JObj sd) → Scope_new sd = Ok scope →
  Py.dict_lookup "enterprise" d = Some (JObj ed) → Enterprise_new ed = Ok enterprise →
  User_new (user_fields d) = Ok user0 →
  created_at_or_now (default JNull (Py.dict_lookup "created_at" d)) = Ok t →
  let user :=
    set_created_at t (set_enterprise enterprise (set_scope scope (set_role role user0))) in
  ∃ s', create_user_db_access self (Session.open store) = (Ok (), s')
        ∧ Session.added s' = [EUser user]
        ∧ user_role_id user = role_id role
        ∧ user_scope_id user = scope_id scope
        ∧ user_enterprise_id user = enterprise_id enterprise
        ∧ Store.roles (Session.committed s') = Store.roles store
        ∧ Store.scopes (Session.committed s') = Store.scopes store
        ∧ Store.enterprises (Session.committed s') = Store.enterprises store.
Proof.
  intros Hd Hr Hrole Hs Hscope He Hent Huser Ht user.
  unfold create_user_db_access, try_except. rewrite Hd. run.
  rewrite Hr. run. rewrite Hrole. run.
  rewrite dict_lookup_remove_ne, Hs by done. run. rewrite Hscope. run.
  rewrite !dict_lookup_remove_ne, He by done. run. rewrite Hent. run.
  fold (user_fields d). rewrite Huser. run.
  unfold user_fields. rewrite !dict_lookup_remove_ne by done.
  rewrite Ht. run.
  fold user.
  destruct (Store.insert_user user store) as [store'|e] eqn:Hins; run.
  - apply insert_user_frame in Hins as (? & ? & ?).
    eexists. split; [reflexivity |]. cbn. by repeat split.
  - eexists. split; [reflexivity |]. cbn. by repeat split.
Qed.

Lemma get_present (d : jdict) (k : string) (v : json) :
  Py.dict_lookup k d = Some v → Py.get (JObj d) k = Ok v.
Proof. intros H. unfold Py.get. by rewrite H. Qed.

Lemma getitem_lookup (d : jdict) (k : string) (v : json) :
  Py.dict_lookup k d = Some v → Py.getitem (JObj d) k = Ok v.
Proof. intros H. unfold Py.getitem. by rewrite H. Qed.

Lemma getitem_missing (d : jdict) (k : string) :
  Py.dict_lookup k d = None → Py.getitem (JObj d) k = Raise (KeyError k).
Proof. intros H. unfold Py.getitem. by rewrite H. Qed.

(** Membership in the tuple [(ALL, SELLS)] of the found branch. *)
Lemma in_all_sells (x : string) :
  str_in_tuple x [JStr DefaultScope.ALL; JStr DefaultScope.SELLS] = true
  ↔ x = "ALL" ∨ x = "SELLS".
Proof.
  unfold str_in_tuple. cbn [existsb Py.eq_str].
  rewrite orb_false_r, orb_true_iff, !String.eqb_eq.
  unfold DefaultScope.ALL, DefaultScope.SELLS.
  split; (intros [H | H]; [left | right]; by rewrite H).
Qed.

(** Membership in the tuple of the not-found branch, whose second
    component is the boolean [name == SELLS]: a string equals no boolean,
    so only ALL is a member. *)
Lemma in_all_bool (x : string) :
  str_in_tuple x [JStr DefaultScope.ALL; JBool (String.eqb x DefaultScope.SELLS)] = true
  ↔ x = "ALL".
Proof.
  unfold str_in_tuple. cbn [existsb Py.eq_str].
  rewrite !orb_false_r, String.eqb_eq.
  unfold DefaultScope.ALL. split; intros H; by rewrite H.
Qed.

Lemma update_user_guard_passes (self : UpdateEvent) (d fu : jdict) (eid ident : json) :
  data self = JObj d →
  full_user self = JObj fu →
  Py.dict_lookup "enterprise_id" d = Some eid → Py.truthy eid = true →
  Py.dict_lookup "id" d = Some ident → Py.truthy ident = true →
  update_user_guard self = Ok true.
Proof.
  intros Hd Hfu Heid Het Hid Hit. unfold update_user_guard.
  rewrite Hd, Hfu. unfold mbind, res_bind.
  by rewrite (get_present _ _ _ Heid), Het, (get_present _ _ _ Hid), Hit.
Qed.

(** C5. For a user.updated event whose snapshot validates and whose
    [data.enterprise_id] and [data.id] are present and truthy: when the
    store holds a user under the key [data.id] denotes and the scope name
    of the snapshot is neither ALL nor SELLS, [update_user] deletes that
    user from the store. *)
Theorem update_user_deletes_out_of_scope_user (self : UpdateEvent)
    (store : Store.t) (d fu : jdict) (ur : UserRead) (eid ident : json) (uid : Z)
    (u : User) :
  data self = JObj d →
  full_user self = JObj fu →
  UserRead_new fu = Ok ur →
  Py.dict_lookup "enterprise_id" d = Some eid → Py.truthy eid = true →
  Py.dict_lookup "id" d = Some ident → Py.truthy ident = true →
  Session.as_pk ident = Ok (Some uid) →
  Store.users store !! uid = Some u →
  user_id u = Some uid →
  read_scope_name ur ≠ "ALL" →
  read_scope_name ur ≠ "SELLS" →
  ∃ s', update_user_db_access self (Session.open store) = (Ok (), s')
        ∧ Store.users (Session.committed s') !! uid = None
        ∧ Session.deleted s' = [EUser u].
Proof.
  intros Hd Hfu Hur Heid Het Hid Hit Hpk Hu Hkey Hall Hsells.
  unfold update_user_db_access.
  unfold try_except, mbind at 1, M_bind at 1, lift at 1.
  rewrite (update_user_guard_passes self d fu eid ident); try done.
  rewrite Hd, Hfu. run. rewrite Hur. run.
  rewrite Hid. run. unfold get_user, get_in. rewrite Hpk. run. rewrite Hu.
  assert (str_in_tuple (read_scope_name ur)
            [JStr DefaultScope.ALL; JStr DefaultScope.SELLS] = false) as ->.
  { apply not_true_is_false. rewrite in_all_sells.
    intros [H | H]; [exact (Hall H) | exact (Hsells H)]. }
  run. rewrite Hkey. run.
  eexists. split; [reflexivity |]. cbn.
  split; [apply lookup_delete_eq | done].
Qed.

(** C6. For a user.updated event whose snapshot validates with the scope
    name SELLS and whose [data.id] names no stored user, [update_user]
    adds nothing and leaves the store as it was: the membership test of
    the not-found branch holds for ALL only. *)
Theorem update_user_missing_sells_user_not_inserted (self : UpdateEvent)
    (store : Store.t) (d fu : jdict) (ur : UserRead) (eid : json) (uid : Z) :
  data self = JObj d →
  full_user self = JObj fu →
  UserRead_new fu = Ok ur →
  Py.dict_lookup "enterprise_id" d = Some eid → Py.truthy eid = true →
  Py.dict_lookup "id" d = Some (JInt uid) → uid ≠ 0 →
  Store.users store !! uid = None →
  read_scope_name ur = "SELLS" →
  update_user_db_access self (Session.open store) = (Ok (), Session.open store).
Proof.
  intros Hd Hfu Hur Heid Het Hid Hnz Hu Hsells.
  unfold update_user_db_access.
  unfold try_except, mbind at 1, M_bind at 1, lift at 1.
  rewrite (update_user_guard_passes self d fu eid (JInt uid)); try done;
    [| cbn; by destruct (Z.eqb_spec uid 0)].
  rewrite Hd, Hfu. run. rewrite Hur. run.
  rewrite Hid. run. rewrite Hu.
  assert (str_in_tuple (read_scope_name ur)
            [JStr DefaultScope.ALL;
             JBool (String.eqb (read_scope_name ur) DefaultScope.SELLS)] = false) as ->.
  { apply not_true_is_false. rewrite in_all_bool, Hsells. discriminate. }
  reflexivity.
Qed.

Lemma assign_if_present_keeps (self : UpdateEvent) (d : jdict) (key : string)
    (set : json → User → User) (u : User) (s : Session.t) :
  data self = JObj d →
  (∀ v x, user_id (set v x) = user_id x ∧ user_scope_id (set v x) = user_scope_id x) →
  ∃ u', assign_if_present self key set u s = (Ok u', s)
        ∧ user_id u' = user_id u
        ∧ user_scope_id u' = user_scope_id u.
Proof.
  intros Hd Hset. unfold assign_if_present. rewrite Hd.
  unfold mbind, M_bind, lift, Py.contains, Py.dict_mem, Py.getitem.
  destruct (Py.dict_lookup key d) as [v|]; cbn.
  - exists (set v u). split; [done | apply Hset].
  - by exists u.
Qed.

(** With a truthy [role_id] the statement that resolves role and scope
    binds no scope, whatever [scope_id] and [scope_name] the payload
    carries. *)
Lemma resolve_role_scope_with_role_id (self : UpdateEvent) (d : jdict) (rid : Z)
    (s : Session.t) :
  data self = JObj d →
  Py.dict_lookup "role_id" d = Some (JInt rid) → rid ≠ 0 →
  resolve_role_scope self s
  = (Ok (Store.roles (Session.committed s) !! rid, None), s).
Proof.
  intros Hd Hrid Hnz. unfold resolve_role_scope. rewrite Hd.
  unfold mbind at 1, M_bind at 1, lift at 1. rewrite (getitem_lookup _ _ _ Hrid).
  cbn [Py.truthy]. destruct (Z.eqb_spec rid 0) as [|_]; [done |]. cbn [negb].
  by run.
Qed.

(** C7. On an existing user whose snapshot scope is ALL or SELLS, a
    payload that supplies the role through a truthy [role_id] leaves the
    scope of the user as it was, whatever [scope_id] or [scope_name] it
    carries: the scope is looked up only inside the branch taken for a
    falsy [role_id] with a [role_name] key. *)
Theorem update_user_with_role_id_keeps_scope (self : UpdateEvent)
    (store : Store.t) (d fu : jdict) (ur : UserRead) (eid : json) (uid rid : Z)
    (u : User) :
  data self = JObj d →
  full_user self = JObj fu →
  UserRead_new fu = Ok ur →
  Py.dict_lookup "enterprise_id" d = Some eid → Py.truthy eid = true →
  Py.dict_lookup "id" d = Some (JInt uid) → uid ≠ 0 →
  Store.users store !! uid = Some u →
  user_id u = Some uid →
  read_scope_name ur = "ALL" ∨ read_scope_name ur = "SELLS" →
  Py.dict_lookup "role_id" d = Some (JInt rid) → rid ≠ 0 →
  ∃ s' u', update_user_db_access self (Session.open store) = (Ok (), s')
           ∧ Store.users (Session.committed s') !! uid = Some u'
           ∧ user_scope_id u' = user_scope_id u.
Proof.
  intros Hd Hfu Hur Heid Het Hid Hnz Hu Hkey Hscope Hrid Hrnz.
  unfold update_user_db_access.
  unfold try_except, mbind at 1, M_bind at 1, lift at 1.
  rewrite (update_user_guard_passes self d fu eid (JInt uid)); try done;
    [| cbn; by destruct (Z.eqb_spec uid 0)].
  rewrite Hd, Hfu. run. rewrite Hur. run.
  rewrite Hid. run. rewrite Hu.
  assert (str_in_tuple (read_scope_name ur)
            [JStr DefaultScope.ALL; JStr DefaultScope.SELLS] = true) as ->
    by by apply in_all_sells.
  run.
  rewrite (resolve_role_scope_with_role_id self d rid _ Hd Hrid Hrnz).
  run.
  set (u0 := from_option (fun r => set_role r u) u _).
  assert (user_id u0 = user_id u ∧ user_scope_id u0 = user_scope_id u) as [Hk0 Hs0].
  { subst u0. by destruct (Store.roles _ !! rid). }
  change (from_option (fun x : Scope => set_scope x u0) u0 None) with u0.
  destruct (assign_if_present_keeps self d "username" set_username u0
              (Session.open store) Hd) as (u1 & -> & Hk1 & Hs1); [done |].
  destruct (assign_if_present_keeps self d "email" set_email u1
              (Session.open store) Hd) as (u2 & -> & Hk2 & Hs2); [done |].
  destruct (assign_if_present_keeps self d "full_name" set_full_name u2
              (Session.open store) Hd) as (u3 & -> & Hk3 & Hs3); [done |].
  assert (user_id u3 = Some uid) as Hk by congruence.
  run. rewrite Hk. run.
  rewrite lookup_alter_eq, Hu. run.
  eexists _, u3. split; [reflexivity |]. cbn.
  split; [by rewrite lookup_alter_eq, Hu | congruence].
Qed.

(** Without a [role_id] key the subscript [data["role_id"]] raises inside
    the [try]: the handler swallows the [KeyError] and nothing of the
    payload is applied. *)
Lemma update_user_without_role_id_key_changes_nothing (self : UpdateEvent)
    (store : Store.t) (d fu : jdict) (ur : UserRead) (eid : json) (uid : Z)
    (u : User) :
  data self = JObj d →
  full_user self = JObj fu →
  UserRead_new fu = Ok ur →
  Py.dict_lookup "enterprise_id" d = Some eid → Py.truthy eid = true →
  Py.dict_lookup "id" d = Some (JInt uid) → uid ≠ 0 →
  Store.users store !! uid = Some u →
  read_scope_name ur = "ALL" ∨ read_scope_name ur = "SELLS" →
  Py.dict_lookup "role_id" d = None →
  update_user_db_access self (Session.open store) = (Ok (), Session.open store).
Proof.
  intros Hd Hfu Hur Heid Het Hid Hnz Hu Hscope Hrid.
  unfold update_user_db_access.
  unfold try_except, mbind at 1, M_bind at 1, lift at 1.
  rewrite (update_user_guard_passes self d fu eid (JInt uid)); try done;
    [| cbn; by destruct (Z.eqb_spec uid 0)].
  rewrite Hd, Hfu. run. rewrite Hur. run.
  rewrite Hid. run. rewrite Hu.
  assert (str_in_tuple (read_scope_name ur)
            [JStr DefaultScope.ALL; JStr DefaultScope.SELLS] = true) as ->
    by by apply in_all_sells.
  run. unfold resolve_role_scope. rewrite Hd. run. rewrite Hrid. reflexivity.
Qed.

(** C9. Without an [id] key in the payload, the closures of [delete_user]
    and [delete_enterprise], which have no [try], raise [KeyError] to the
    apply loop; so does the closure of [update_enterprise], whose handler
    formats [data["name"]] into its message. *)
Theorem unguarded_mutators_raise_on_empty_payload (ev sc og us fu : json)
    (t : datetime) (s : Session.t) :
  let self := mkUpdateEvent ev sc (JObj []) t og us fu in
  fst (delete_user_db_access self s) = Raise (KeyError "id")
  ∧ fst (delete_enterprise_db_access self s) = Raise (KeyError "id")
  ∧ fst (update_enterprise_db_access self s) = Raise (KeyError "name").
Proof.
  cbn zeta. split; [reflexivity |]. split; [reflexivity |].
  unfold update_enterprise_db_access. run.
  destruct (EnterpriseUpdate_new []); reflexivity.
Qed.

(** *** More on the apply loop *)

Section LoopAccounting.

Context {S : Type} (close rollback : S → S).

Implicit Types (st : Loop.state S) (a : Loop.attempt S) (env : nat → Loop.attempt S).

Lemma calls_in_app (tr1 tr2 : list Loop.effect) :
  LoopTrace.calls_in (tr1 ++ tr2)
  = (LoopTrace.calls_in tr1 + LoopTrace.calls_in tr2)%nat.
Proof.
  induction tr1 as [|ev tr1 IH]; [done |]. destruct ev; cbn; rewrite IH; lia.
Qed.

Lemma slept_in_app (tr1 tr2 : list Loop.effect) :
  LoopTrace.slept_in (tr1 ++ tr2) = LoopTrace.slept_in tr1 + LoopTrace.slept_in tr2.
Proof.
  induction tr1 as [|ev tr1 IH]; [done |]. destruct ev; cbn; rewrite IH; lia.
Qed.

Lemma rollbacks_in_app (tr1 tr2 : list Loop.effect) :
  LoopTrace.rollbacks_in (tr1 ++ tr2)
  = (LoopTrace.rollbacks_in tr1 + LoopTrace.rollbacks_in tr2)%nat.
Proof.
  induction tr1 as [|ev tr1 IH]; [done |]. destruct ev; cbn; rewrite IH; lia.
Qed.

(** A terminating run ends in the state that unrolling the same number
    of passes reaches. *)
Lemma while_loop_unroll env (fuel : nat) :
  ∀ i st st',
    Loop.while_loop close rollback fuel env i st = Some st' →
    Loop.unroll close rollback fuel env i st = st'.
Proof.
  induction fuel as [|fuel IH]; intros i st st'; cbn [Loop.while_loop Loop.unroll];
    destruct (Loop.counter st >? 0) eqn:Hc; try discriminate; try congruence.
  destruct (Loop.pass close rollback (env i) st) as [st1|st1]; [apply IH | congruence].
Qed.

(** What one pass does to the three accounts. *)
Lemma pass_accounts a st :
  match Loop.pass close rollback a st with
  | Loop.Continue st' =>
      LoopTrace.slept st' + 5 * Loop.counter st'
      = LoopTrace.slept st + 5 * Loop.counter st
      ∧ Z.of_nat (LoopTrace.calls st') + Loop.counter st'
        ≤ Z.of_nat (LoopTrace.calls st) + Loop.counter st
      ∧ Loop.counter st - 1 ≤ Loop.counter st' ≤ Loop.counter st
      ∧ Z.of_nat (LoopTrace.rollbacks st') + Loop.counter st'
        ≤ Z.of_nat (LoopTrace.rollbacks st) + Loop.counter st
  | Loop.Break st' =>
      LoopTrace.slept st' = LoopTrace.slept st
      ∧ Loop.counter st' = Loop.counter st
      ∧ LoopTrace.calls st' = Datatypes.S (LoopTrace.calls st)
      ∧ LoopTrace.rollbacks st' = LoopTrace.rollbacks st
  end.
Proof.
  unfold Loop.pass, Loop.handler, LoopTrace.slept, LoopTrace.calls, LoopTrace.rollbacks.
  destruct (Loop.acquire a) as [[s|]|e]; cbn.
  - destruct (Loop.callback a s) as [[[]|e] s']; cbn.
    + destruct (Loop.is_active a s'); cbn;
        rewrite !slept_in_app, !calls_in_app, !rollbacks_in_app; cbn;
        (split; [lia | split; [lia | split; lia]]).
    + destruct (Loop.is_active a (rollback s')); cbn;
        rewrite !slept_in_app, !calls_in_app, !rollbacks_in_app; cbn;
        (split; [lia | split; [lia | split; lia]]).
  - rewrite !slept_in_app, !calls_in_app, !rollbacks_in_app. cbn.
    split; [lia | split; [lia | split; lia]].
  - destruct (Loop.db st) as [s|]; cbn.
    + destruct (Loop.is_active a (rollback s)); cbn;
        rewrite !slept_in_app, !calls_in_app, !rollbacks_in_app; cbn;
        (split; [lia | split; [lia | split; lia]]).
    + rewrite !slept_in_app, !calls_in_app, !rollbacks_in_app. cbn.
      split; [lia | split; [lia | split; lia]].
Qed.

Lemma unroll_accounts env (n : nat) :
  ∀ i st,
    let st' := Loop.unroll close rollback n env i st in
    LoopTrace.slept st' + 5 * Loop.counter st'
    = LoopTrace.slept st + 5 * Loop.counter st
    ∧ Loop.counter st' ≤ Loop.counter st
    ∧ (0 ≤ Loop.counter st → 0 ≤ Loop.counter st')
    ∧ (Z.of_nat (LoopTrace.calls st')
       ≤ Z.of_nat (LoopTrace.calls st) + Z.max 0 (Loop.counter st))
    ∧ (Z.of_nat (LoopTrace.rollbacks st')
       ≤ Z.of_nat (LoopTrace.rollbacks st) + Z.max 0 (Loop.counter st)).
Proof.
  induction n as [|n IH]; intros i st; cbn [Loop.unroll]; cbn zeta.
  - repeat split; lia.
  - destruct (Loop.counter st >? 0) eqn:Hc; [| repeat split; lia].
    pose proof (pass_accounts (env i) st) as Hpass.
    destruct (Loop.pass close rollback (env i) st) as [st1|st1].
    + destruct Hpass as (Hs & Hcalls & Hcnt & Hrb).
      specialize (IH (Datatypes.S i) st1). cbn zeta in IH.
      destruct IH as (IHs & IHc & IHpos & IHcalls & IHrb).
      repeat split; lia.
    + destruct Hpass as (Hs & Hcnt & Hcalls & Hrb).
      repeat split; lia.
Qed.

(** X1. Whatever the session provider and the callback do, and however
    many passes have run, [__db_access_loop] has slept exactly 5 seconds
    for every unit of its budget that is consumed, and has called the
    callback and rolled back at most as often as the budget allows. *)
Theorem db_access_loop_accounts env (n : nat) (retries : Z) :
  let st := Loop.unroll close rollback n env 0%nat (Loop.init retries) in
  LoopTrace.slept st = 5 * (retries - Loop.counter st)
  ∧ Z.of_nat (LoopTrace.calls st) ≤ Z.max 0 retries
  ∧ Z.of_nat (LoopTrace.rollbacks st) ≤ Z.max 0 retries.
Proof.
  cbn zeta.
  pose proof (unroll_accounts env n 0%nat (Loop.init retries)) as H.
  cbn zeta in H. destruct H as (Hs & _ & _ & Hcalls & Hrb).
  change (LoopTrace.slept (Loop.init (S := S) retries)) with 0 in Hs.
  change (Loop.counter (Loop.init (S := S) retries)) with retries in *.
  change (LoopTrace.calls (Loop.init (S := S) retries)) with 0%nat in Hcalls.
  change (LoopTrace.rollbacks (Loop.init (S := S) retries)) with 0%nat in Hrb.
  repeat split; lia.
Qed.

Lemma unavailable_trace_counts (k : nat) :
  length (List.filter (fun ev => match ev with Loop.Acquire => true | _ => false end)
            (LoopTrace.unavailable_trace k)) = k
  ∧ LoopTrace.calls_in (LoopTrace.unavailable_trace k) = 0%nat
  ∧ LoopTrace.slept_in (LoopTrace.unavailable_trace k) = 5 * Z.of_nat k
  ∧ existsb (fun ev => match ev with Loop.Call => true | _ => false end)
      (LoopTrace.unavailable_trace k) = false.
Proof.
  induction k as [|k (IH1 & IH2 & IH3 & IH4)]; [done |].
  cbn [LoopTrace.unavailable_trace List.filter length LoopTrace.calls_in
         LoopTrace.slept_in existsb orb].
  rewrite IH1, IH2, IH3, IH4. repeat split; lia.
Qed.

Lemma after_unavailable_step st (k : nat) :
  LoopTrace.after_unavailable k
    (Loop.mkState None (Loop.err st) (Loop.counter st - 1)
       ((Loop.trace st ++ [Loop.Acquire]) ++ [Loop.Sleep 5]))
  = LoopTrace.after_unavailable (Datatypes.S k) st.
Proof.
  destruct k as [|k]; unfold LoopTrace.after_unavailable;
    cbn [Loop.err Loop.counter Loop.trace LoopTrace.unavailable_trace].
  - f_equal. by rewrite <- !app_assoc.
  - f_equal; [lia | by rewrite <- !app_assoc].
Qed.

(** Passes that find no session only count down and sleep. *)
Lemma while_loop_after_unavailable env (k : nat) :
  ∀ (fuel i : nat) st,
    (∀ j, (j < k)%nat → Loop.acquire (env (i + j)%nat) = Ok None) →
    Z.of_nat k ≤ Loop.counter st →
    Loop.while_loop close rollback (k + fuel) env i st
    = Loop.while_loop close rollback fuel env (i + k)%nat
        (LoopTrace.after_unavailable k st).
Proof.
  induction k as [|k IH]; intros fuel i st Hnone Hc.
  - cbn. by rewrite Nat.add_0_r.
  - cbn [Nat.add Loop.while_loop].
    assert ((Loop.counter st >? 0) = true) as -> by lia.
    unfold Loop.pass. specialize (Hnone 0%nat ltac:(lia)) as H0.
    rewrite Nat.add_0_r in H0. rewrite H0. cbn [Loop.db Loop.err Loop.counter Loop.trace].
    rewrite IH.
    + rewrite after_unavailable_step. f_equal. lia.
    + intros j Hj. specialize (Hnone (Datatypes.S j) ltac:(lia)).
      by replace (Datatypes.S i + j)%nat with (i + Datatypes.S j)%nat by lia.
    + cbn. lia.
Qed.

(** X2. When the first [k] acquisitions find no session, the budget is
    larger than [k], and the next acquisition yields a session on which
    the callback returns, [__db_access_loop] returns normally after
    [k + 1] acquisitions, one call of the callback and [5 * k] seconds of
    sleep, holding the session, closed if it was active. *)
Theorem db_access_loop_recovers env (k : nat) (retries : Z) (s s' : S) :
  (∀ j, (j < k)%nat → Loop.acquire (env j) = Ok None) →
  Loop.acquire (env k) = Ok (Some s) →
  Loop.callback (env k) s = (Ok (), s') →
  Z.of_nat k < retries →
  ∃ st,
    Loop.__db_access_loop close rollback (Datatypes.S k) env retries = Some (Ok (), st)
    ∧ Loop.db st = Some (if Loop.is_active (env k) s' then close s' else s')
    ∧ Loop.acquisitions st = Datatypes.S k
    ∧ LoopTrace.calls st = 1%nat
    ∧ LoopTrace.slept st = 5 * Z.of_nat k
    ∧ Loop.counter st = retries - Z.of_nat k.
Proof.
  intros Hnone Hacq Hcb Hk. unfold Loop.__db_access_loop.
  replace (Datatypes.S k) with (k + 1)%nat by lia.
  rewrite while_loop_after_unavailable; [| done | cbn; lia].
  cbn [Nat.add Loop.while_loop].
  destruct (unavailable_trace_counts k) as (Hacqs & Hcalls & Hslept & _).
  assert (Loop.counter (LoopTrace.after_unavailable k (Loop.init (S := S) retries))
          = retries - Z.of_nat k) as Hcnt.
  { destruct k; cbn; lia. }
  assert (Loop.trace (LoopTrace.after_unavailable k (Loop.init (S := S) retries))
          = LoopTrace.unavailable_trace k) as Htr.
  { by destruct k. }
  assert ((Loop.counter (LoopTrace.after_unavailable k (Loop.init (S := S) retries)) >? 0)
          = true) as -> by lia.
  unfold Loop.pass. rewrite Hacq, Hcb, Htr, Hcnt.
  cbn [Loop.db Loop.err Loop.counter Loop.trace].
  destruct (Loop.is_active (env k) s'); cbn [mbind option_bind];
    (eexists; split;
     [unfold Loop.after_loop; cbn [Loop.counter];
      assert ((retries - Z.of_nat k =? 0) = false) as -> by lia; reflexivity |]);
    unfold Loop.acquisitions, LoopTrace.calls, LoopTrace.slept;
    cbn [Loop.db Loop.counter Loop.trace];
    rewrite !List.filter_app, !length_app, !calls_in_app, !slept_in_app,
      Hacqs, Hcalls, Hslept; cbn; repeat split; lia.
Qed.

(** X3. When every acquisition within the budget finds no session,
    [__db_access_loop] raises the generic connection error after exactly
    [retries] acquisitions and [5 * retries] seconds of sleep, and the
    callback is never called. *)
Theorem db_access_loop_never_available env (retries : Z) :
  0 ≤ retries →
  (∀ j, (j < Z.to_nat retries)%nat → Loop.acquire (env j) = Ok None) →
  ∃ st,
    Loop.__db_access_loop close rollback (Z.to_nat retries) env retries
    = Some (Raise (PlainException "Failed to connect to the database"), st)
    ∧ Loop.acquisitions st = Z.to_nat retries
    ∧ LoopTrace.calls st = 0%nat
    ∧ LoopTrace.slept st = 5 * retries.
Proof.
  intros Hpos Hnone. unfold Loop.__db_access_loop.
  pose proof (while_loop_after_unavailable env (Z.to_nat retries) 0%nat 0%nat
                (Loop.init retries) Hnone ltac:(cbn; lia)) as Hskip.
  rewrite Nat.add_0_r in Hskip. rewrite Hskip.
  cbn [Nat.add Loop.while_loop].
  destruct (unavailable_trace_counts (Z.to_nat retries)) as (Hacqs & Hcalls & Hslept & _).
  set (k := Z.to_nat retries) in *.
  assert (Loop.counter (LoopTrace.after_unavailable k (Loop.init (S := S) retries)) = 0)
    as Hcnt.
  { subst k. destruct (Z.to_nat retries) eqn:E; cbn; lia. }
  assert (Loop.trace (LoopTrace.after_unavailable k (Loop.init (S := S) retries))
          = LoopTrace.unavailable_trace k) as Htr.
  { by destruct k. }
  assert (Loop.db (LoopTrace.after_unavailable k (Loop.init (S := S) retries)) = None)
    as Hdb.
  { by destruct k. }
  rewrite Hcnt. cbn [Z.gtb Z.compare mbind option_bind].
  eexists. split.
  - unfold Loop.after_loop. by rewrite Hcnt, Hdb.
  - unfold Loop.acquisitions, LoopTrace.calls, LoopTrace.slept.
    rewrite Htr, Hacqs, Hcalls, Hslept. subst k. repeat split; lia.
Qed.

(** X4. When no call of [next(get_db())] raises, [__db_access_loop] ends
    within [retries] passes, having made at most [retries] acquisitions. *)
Theorem db_access_loop_ends_when_acquisition_returns env (retries : Z) :
  (∀ i, ∃ o, Loop.acquire (env i) = Ok o) →
  ∃ r st,
    Loop.__db_access_loop close rollback (Z.to_nat retries) env retries = Some (r, st)
    ∧ Z.of_nat (Loop.acquisitions st) ≤ Z.max 0 retries.
Proof.
  intros Hacq. unfold Loop.__db_access_loop.
  destruct (while_loop_ends_when_acquisition_returns close rollback env
              (Z.to_nat retries) Hacq 0%nat (Loop.init retries))
    as (st & -> & Hle); [cbn; lia |].
  eexists _, st. split; [reflexivity |]. exact Hle.
Qed.

Lemma while_loop_exit env (fuel : nat) :
  ∀ i st st',
    0 ≤ Loop.counter st →
    Loop.while_loop close rollback fuel env i st = Some st' →
    Loop.counter st' = 0
    ∨ (0 < Loop.counter st' ∧ Loop.ever_acquired st' = true).
Proof.
  induction fuel as [|fuel IH]; intros i st st' Hpos; cbn [Loop.while_loop];
    destruct (Loop.counter st >? 0) eqn:Hc; try discriminate;
    try (intros [= <-]; left; lia).
  pose proof (pass_accounts (env i) st) as Hacc.
  destruct (Loop.pass close rollback (env i) st) as [st1|st1] eqn:Hpass.
  - apply IH. lia.
  - intros [= <-]. right. destruct Hacc as (_ & Hcnt & _ & _).
    split; [lia |].
    revert Hpass. unfold Loop.pass, Loop.handler, Loop.ever_acquired.
    destruct (Loop.acquire (env i)) as [[s|]|e]; cbn.
    + destruct (Loop.callback (env i) s) as [[[]|e] s']; cbn.
      * destruct (Loop.is_active (env i) s'); intros [= <-]; cbn;
          rewrite !existsb_app; cbn; by rewrite ?orb_true_r.
      * destruct (Loop.is_active (env i) (rollback s')); discriminate.
    + discriminate.
    + destruct (Loop.db st) as [s|]; cbn;
        [destruct (Loop.is_active (env i) (rollback s)) |]; discriminate.
Qed.

(** X5. With a positive budget, [__db_access_loop] returns normally only
    after a pass in which the callback was called and returned: budget
    is left over and a session was acquired. *)
Theorem db_access_loop_normal_return env (fuel : nat) (retries : Z) st :
  0 < retries →
  Loop.__db_access_loop close rollback fuel env retries = Some (Ok (), st) →
  0 < Loop.counter st ∧ Loop.ever_acquired st = true.
Proof.
  intros Hpos. unfold Loop.__db_access_loop.
  destruct (Loop.while_loop close rollback fuel env 0%nat (Loop.init retries))
    as [st0|] eqn:Hloop; [| discriminate].
  cbn. intros [= Hafter <-].
  pose proof (while_loop_invariant close rollback env fuel _ _ _
                (init_invariant retries) Hloop) as (_ & Hz & _).
  destruct (while_loop_exit env fuel 0%nat (Loop.init retries) st0
              ltac:(cbn; lia) Hloop) as [Hzero | Hok];
    [| exact Hok].
  exfalso. revert Hafter. unfold Loop.after_loop. rewrite Hzero. cbn.
  destruct (Loop.db st0) as [s|] eqn:Hdb; [| discriminate].
  destruct (Hz Hzero) as [[=] | Herr].
  destruct (Loop.err st0); [discriminate | done].
Qed.

(** X6. A budget that is not positive runs no pass at all: no session is
    requested and the callback is not called.  With [retries = 0] the
    loop raises the generic connection error, with a negative [retries]
    it returns normally. *)
Theorem db_access_loop_without_budget env (fuel : nat) (retries : Z) :
  retries ≤ 0 →
  Loop.__db_access_loop close rollback fuel env retries
  = Some (if retries =? 0
          then Raise (PlainException "Failed to connect to the database")
          else Ok (),
          Loop.init retries).
Proof.
  intros Hle. unfold Loop.__db_access_loop.
  assert (Loop.while_loop close rollback fuel env 0%nat (Loop.init retries)
          = Some (Loop.init retries)) as ->.
  { destruct fuel; cbn [Loop.while_loop Loop.init Loop.counter];
      by assert ((retries >? 0) = false) as -> by lia. }
  cbn [mbind option_bind]. unfold Loop.after_loop. cbn.
  by destruct (retries =? 0).
Qed.

End LoopAccounting.

(** *** More on the envelope parser *)

(** On an object with the five fields, only the timestamp can still
    fail. *)
Lemma create_from_message_object (message : string) (d : jdict) :
  json_loads message = Some (JObj d) →
  has_required_fields d →
  create_from_message message
  = (t ← py_fromisoformat (default JNull (Py.dict_lookup "start_date" d));
     Ok (Some (mkUpdateEvent
                 (default JNull (Py.dict_lookup "event" d))
                 (default JNull (Py.dict_lookup "event_scope" d))
                 (default JNull (Py.dict_lookup "data" d))
                 t
                 (default JNull (Py.dict_lookup "origin" d))
                 (default JNull (Py.dict_lookup "update_scope" d))
                 (default JNull (Py.dict_lookup "user" d))))).
Proof.
  intros Hd Hreq. unfold create_from_message. rewrite Hd, any_missing_object.
  assert (existsb (fun k => negb (Py.dict_mem k d)) required_fields = false) as ->.
  { apply not_true_is_false. intros (k & Hk & Hm)%existsb_exists.
    unfold has_required_fields in Hreq. rewrite List.Forall_forall in Hreq.
    rewrite (Hreq k Hk) in Hm. discriminate. }
  unfold has_required_fields in Hreq. rewrite List.Forall_forall in Hreq.
  destruct (getitem_present d "event") as (ev & -> & ->); [apply Hreq; simpl; pick_disjunct |].
  destruct (getitem_present d "event_scope") as (sc & -> & ->);
    [apply Hreq; simpl; pick_disjunct |].
  destruct (getitem_present d "data") as (da & -> & ->); [apply Hreq; simpl; pick_disjunct |].
  destruct (getitem_present d "origin") as (og & -> & ->);
    [apply Hreq; simpl; pick_disjunct |].
  destruct (getitem_present d "start_date") as (sd & -> & ->);
    [apply Hreq; simpl; pick_disjunct |].
  reflexivity.
Qed.

(** X7. A message that decodes to an object with the five required fields
    and a [start_date] string that parses yields an event made of exactly
    those fields; [update_scope] and the snapshot under [user] are [None]
    when the object has no such key, and every other key is ignored. *)
Theorem create_from_message_builds_event (message : string) (d : jdict)
    (s : string) (t : datetime) :
  json_loads message = Some (JObj d) →
  has_required_fields d →
  Py.dict_lookup "start_date" d = Some (JStr s) →
  fromisoformat s = Some t →
  create_from_message message
  = Ok (Some (mkUpdateEvent
                (default JNull (Py.dict_lookup "event" d))
                (default JNull (Py.dict_lookup "event_scope" d))
                (default JNull (Py.dict_lookup "data" d))
                t
                (default JNull (Py.dict_lookup "origin" d))
                (default JNull (Py.dict_lookup "update_scope" d))
                (default JNull (Py.dict_lookup "user" d)))).
Proof.
  intros Hd Hreq Hsd Ht.
  rewrite (create_from_message_object message d Hd Hreq), Hsd.
  unfold mbind, res_bind, py_fromisoformat. cbn [default from_option id].
  by rewrite Ht.
Qed.

Lemma any_missing_total (c : string → bool) (ks : list string) :
  Py.any_map (fun x => negb <$> Ok (c x)) ks = Ok (negb (forallb c ks)).
Proof.
  induction ks as [|k ks IH]; [done |].
  cbn. destruct (c k); cbn; [exact IH | done].
Qed.

Lemma any_missing_container (v : json) :
  (∃ s, v = JStr s) ∨ (∃ xs, v = JArr xs) →
  Py.any_map (fun x => negb <$> Py.contains x v) required_fields
  = Ok (negb (names_all_contained v)).
Proof.
  unfold names_all_contained.
  intros [[s ->] | [xs ->]]; cbn [Py.contains]; apply any_missing_total.
Qed.

(** X8. A message that decodes to a JSON string or array is not an
    envelope, yet the presence test runs on it as a substring or element
    test: [create_from_message] returns [None] when one of the five names
    does not occur, and raises [TypeError] at the first subscript when all
    five occur. *)
Theorem create_from_message_on_container (message : string) (v : json) :
  json_loads message = Some v →
  (∃ s, v = JStr s) ∨ (∃ xs, v = JArr xs) →
  create_from_message message
  = if names_all_contained v then Raise TypeError else Ok None.
Proof.
  intros Hd Hv. unfold create_from_message. rewrite Hd, (any_missing_container v Hv).
  destruct (names_all_contained v); cbn; [| reflexivity].
  by destruct Hv as [[s ->] | [xs ->]].
Qed.

(** *** What the closures can reach *)

Section Confined.

Variable ok : pending_op → bool.
Variable frame : Store.t → Store.t → Prop.
Hypothesis frame_refl : ∀ a, frame a a.
Hypothesis frame_trans : ∀ a b c, frame a b → frame b c → frame a c.
Hypothesis apply_ok :
  ∀ op a b, ok op = true → Store.apply_op op a = Ok b → frame a b.

Lemma apply_ops_frame (ops : list pending_op) :
  ∀ a b, forallb ok ops = true → Store.apply_ops ops a = Ok b → frame a b.
Proof using frame_refl frame_trans apply_ok.
  induction ops as [|op ops IH]; intros a b Hok; cbn.
  - intros [= <-]. apply frame_refl.
  - cbn in Hok. apply andb_prop in Hok as [Hop Hops].
    destruct (Store.apply_op op a) as [a1|e] eqn:Hstep; cbn; [| discriminate].
    intros Hrest. eapply frame_trans; [by eapply apply_ok | by eapply IH].
Qed.

Lemma confined_ret {A : Type} (a : A) : confined ok frame (mret a).
Proof using frame_refl. intros s Hs. cbn. auto. Qed.

Lemma confined_lift {A : Type} (r : res A) : confined ok frame (lift r).
Proof using frame_refl. intros s Hs. cbn. auto. Qed.

Lemma confined_raise {A : Type} (e : exn) : confined ok frame (raise (A := A) e).
Proof using frame_refl. intros s Hs. cbn. auto. Qed.

Lemma confined_bind {A B : Type} (m : M A) (k : A → M B) :
  confined ok frame m → (∀ a, confined ok frame (k a)) →
  confined ok frame (m ≫= k).
Proof using frame_trans.
  intros Hm Hk s Hs. unfold mbind, M_bind.
  specialize (Hm s Hs). destruct (m s) as [[a|e] s1]; cbn in Hm |- *; [| exact Hm].
  destruct Hm as [Hp1 Hf1]. specialize (Hk a s1 Hp1).
  destruct Hk as [Hp2 Hf2]. split; [exact Hp2 | by eapply frame_trans].
Qed.

Lemma confined_get_in {A : Type} (table : Store.t → gmap Z A) (ident : json) :
  confined ok frame (get_in table ident).
Proof using frame_refl.
  intros s Hs. unfold get_in. destruct (as_pk ident) as [[k|]|e]; cbn; auto.
Qed.

Lemma confined_first_role_by_name (eid name : json) :
  confined ok frame (first_role_by_name eid name).
Proof using frame_refl.
  intros s Hs. unfold first_role_by_name. destruct (as_pk eid); cbn; auto.
Qed.

Lemma confined_first_scope_by_name (eid name : json) :
  confined ok frame (first_scope_by_name eid name).
Proof using frame_refl.
  intros s Hs. unfold first_scope_by_name. destruct (as_pk eid); cbn; auto.
Qed.

Lemma confined_add (st : object_state) (e : entity) :
  ok (Insert e) = true → ok (Update e) = true → confined ok frame (add st e).
Proof using frame_refl.
  intros Hi Hu s Hs. unfold add. cbn. rewrite forallb_app, Hs. cbn.
  split; [| apply frame_refl]. destruct st; [by rewrite Hi | by rewrite Hu].
Qed.

Lemma confined_delete (e : entity) :
  ok (Delete e) = true → confined ok frame (Session.delete e).
Proof using frame_refl.
  intros Hd s Hs. unfold Session.delete. cbn. rewrite forallb_app, Hs. cbn.
  split; [by rewrite Hd | apply frame_refl].
Qed.

Lemma confined_commit : confined ok frame commit.
Proof using frame_refl frame_trans apply_ok.
  intros s Hs. unfold commit.
  destruct (Store.apply_ops (pending s) (committed s)) as [c|e] eqn:Hops; cbn.
  - split; [done | by eapply apply_ops_frame].
  - auto.
Qed.

Lemma confined_with_session {A : Type} (body : M A) :
  confined ok frame body → confined ok frame (with_session body).
Proof.
  intros Hb s Hs. unfold with_session. specialize (Hb s Hs).
  destruct (body s) as [r s1]. cbn in *. split; [done | apply Hb].
Qed.

Lemma confined_try_except (body : M unit) (handler : exn → M unit) :
  confined ok frame body → (∀ e, confined ok frame (handler e)) →
  confined ok frame (try_except body handler).
Proof using frame_trans.
  intros Hb Hh s Hs. unfold try_except. specialize (Hb s Hs).
  destruct (body s) as [[[]|e] s1]; cbn in Hb |- *; [exact Hb |].
  destruct Hb as [Hp1 Hf1]. destruct (Hh e s1 Hp1) as [Hp2 Hf2].
  split; [exact Hp2 | by eapply frame_trans].
Qed.

End Confined.

Lemma same_catalog_refl (a : Store.t) : same_catalog a a.
Proof. by repeat split. Qed.

Lemma same_catalog_trans (a b c : Store.t) :
  same_catalog a b → same_catalog b c → same_catalog a c.
Proof. intros (? & ? & ?) (? & ? & ?). repeat split; congruence. Qed.

Lemma user_op_catalog (op : pending_op) (a b : Store.t) :
  user_op op = true → Store.apply_op op a = Ok b → same_catalog a b.
Proof.
  destruct op as [[u| | |]|[u| | |]|[u| | |]]; try discriminate; intros _; cbn.
  - intros (? & ? & ?)%insert_user_frame. by repeat split.
  - intros [= <-]. destruct (user_id u); by repeat split.
  - intros [= <-]. destruct (user_id u); by repeat split.
Qed.

(** Breaks a closure down into the session primitives. *)
Ltac confine rfl trs app :=
  repeat first
    [ apply confined_try_except; [exact trs | |]
    | apply confined_with_session
    | apply confined_bind; [exact trs | |]
    | apply confined_ret; exact rfl
    | apply confined_lift; exact rfl
    | apply confined_raise; exact rfl
    | apply confined_get_in; exact rfl
    | apply confined_first_role_by_name; exact rfl
    | apply confined_first_scope_by_name; exact rfl
    | apply confined_add; [exact rfl | reflexivity | reflexivity]
    | apply confined_delete; [exact rfl | reflexivity]
    | apply confined_commit; [exact rfl | exact trs | exact app]
    | match goal with
      | |- confined _ _ (if ?b then _ else _) => destruct b
      | |- confined _ _ (match ?x with _ => _ end) => destruct x
      end
    | intros ?; lazymatch goal with |- confined _ _ _ => idtac end ].

Lemma create_user_confined (self : UpdateEvent) :
  confined user_op same_catalog (create_user_db_access self).
Proof.
  unfold create_user_db_access.
  confine same_catalog_refl same_catalog_trans user_op_catalog.
Qed.

Lemma delete_user_confined (self : UpdateEvent) :
  confined user_op same_catalog (delete_user_db_access self).
Proof.
  unfold delete_user_db_access.
  confine same_catalog_refl same_catalog_trans user_op_catalog.
Qed.

Lemma update_user_confined (self : UpdateEvent) :
  confined user_op same_catalog (update_user_db_access self).
Proof.
  unfold update_user_db_access, resolve_role_scope, assign_if_present,
    get_user, get_role, get_scope.
  confine same_catalog_refl same_catalog_trans user_op_catalog.
Qed.

Section HandsOver.

Variable kind : entity → bool.

Lemma hands_over_ret {A : Type} (a : A) : hands_over kind (mret a).
Proof. intros s Ha Hd. cbn. auto. Qed.

Lemma hands_over_lift {A : Type} (r : res A) : hands_over kind (lift r).
Proof. intros s Ha Hd. cbn. auto. Qed.

Lemma hands_over_raise {A : Type} (e : exn) : hands_over kind (raise (A := A) e).
Proof. intros s Ha Hd. cbn. auto. Qed.

Lemma hands_over_bind {A B : Type} (m : M A) (k : A → M B) :
  hands_over kind m → (∀ a, hands_over kind (k a)) → hands_over kind (m ≫= k).
Proof.
  intros Hm Hk s Ha Hd. unfold mbind, M_bind.
  specialize (Hm s Ha Hd). destruct (m s) as [[a|e] s1]; cbn in Hm |- *; [| exact Hm].
  destruct Hm as [Ha1 Hd1]. exact (Hk a s1 Ha1 Hd1).
Qed.

Lemma hands_over_get_in {A : Type} (table : Store.t → gmap Z A) (ident : json) :
  hands_over kind (get_in table ident).
Proof.
  intros s Ha Hd. unfold get_in. destruct (as_pk ident) as [[k|]|e]; cbn; auto.
Qed.

Lemma hands_over_first_role_by_name (eid name : json) :
  hands_over kind (first_role_by_name eid name).
Proof.
  intros s Ha Hd. unfold first_role_by_name. destruct (as_pk eid); cbn; auto.
Qed.

Lemma hands_over_first_scope_by_name (eid name : json) :
  hands_over kind (first_scope_by_name eid name).
Proof.
  intros s Ha Hd. unfold first_scope_by_name. destruct (as_pk eid); cbn; auto.
Qed.

Lemma hands_over_add (st : object_state) (e : entity) :
  kind e = true → hands_over kind (add st e).
Proof.
  intros He s Ha Hd. unfold add. cbn. rewrite forallb_app, Ha. cbn.
  by rewrite He.
Qed.

Lemma hands_over_delete (e : entity) :
  kind e = true → hands_over kind (Session.delete e).
Proof.
  intros He s Ha Hd. unfold Session.delete. cbn. rewrite forallb_app, Hd. cbn.
  by rewrite He.
Qed.

Lemma hands_over_commit : hands_over kind commit.
Proof.
  intros s Ha Hd. unfold commit.
  destruct (Store.apply_ops (pending s) (committed s)); cbn; auto.
Qed.

Lemma hands_over_with_session {A : Type} (body : M A) :
  hands_over kind body → hands_over kind (with_session body).
Proof.
  intros Hb s Ha Hd. unfold with_session. specialize (Hb s Ha Hd).
  by destruct (body s) as [r s1].
Qed.

Lemma hands_over_try_except (body : M unit) (handler : exn → M unit) :
  hands_over kind body → (∀ e, hands_over kind (handler e)) →
  hands_over kind (try_except body handler).
Proof.
  intros Hb Hh s Ha Hd. unfold try_except. specialize (Hb s Ha Hd).
  destruct (body s) as [[[]|e] s1]; cbn in Hb |- *; [exact Hb |].
  destruct Hb as [Ha1 Hd1]. exact (Hh e s1 Ha1 Hd1).
Qed.

End HandsOver.

Ltac hand :=
  repeat first
    [ apply hands_over_try_except
    | apply hands_over_with_session
    | apply hands_over_bind
    | apply hands_over_ret
    | apply hands_over_lift
    | apply hands_over_raise
    | apply hands_over_get_in
    | apply hands_over_first_role_by_name
    | apply hands_over_first_scope_by_name
    | apply hands_over_add; reflexivity
    | apply hands_over_delete; reflexivity
    | apply hands_over_commit
    | match goal with
      | |- hands_over _ (if ?b then _ else _) => destruct b
      | |- hands_over _ (match ?x with _ => _ end) => destruct x
      end
    | intros ?; lazymatch goal with |- hands_over _ _ => idtac end ].

Lemma user_closures_hand_over_users (self : UpdateEvent) :
  hands_over is_user (create_user_db_access self)
  ∧ hands_over is_user (update_user_db_access self)
  ∧ hands_over is_user (delete_user_db_access self).
Proof.
  split; [| split].
  - unfold create_user_db_access. hand.
  - unfold update_user_db_access, resolve_role_scope, assign_if_present,
      get_user, get_role, get_scope. hand.
  - unfold delete_user_db_access, get_user. hand.
Qed.

(** X12. Whatever the payload, the closures of [create_user],
    [update_user] and [delete_user] pass nothing but user objects to
    [session.add] and [session.delete], and leave the role, scope and
    enterprise tables of the store as they found them. *)
Theorem user_closures_reach_only_users (self : UpdateEvent) (store : Store.t)
    (cb : M unit) :
  cb = create_user_db_access self
  ∨ cb = update_user_db_access self
  ∨ cb = delete_user_db_access self →
  let s' := snd (cb (Session.open store)) in
  forallb is_user (Session.added s') = true
  ∧ forallb is_user (Session.deleted s') = true
  ∧ same_catalog store (Session.committed s').
Proof.
  destruct (user_closures_hand_over_users self) as (Hc & Hu & Hd).
  intros [-> | [-> | ->]]; cbn zeta.
  - destruct (Hc (Session.open store) eq_refl eq_refl) as [? ?].
    split; [done |]. split; [done |].
    by apply (create_user_confined self (Session.open store)).
  - destruct (Hu (Session.open store) eq_refl eq_refl) as [? ?].
    split; [done |]. split; [done |].
    by apply (update_user_confined self (Session.open store)).
  - destruct (Hd (Session.open store) eq_refl eq_refl) as [? ?].
    split; [done |]. split; [done |].
    by apply (delete_user_confined self (Session.open store)).
Qed.

(** X13. Whatever the payload, the closures of [create_enterprise],
    [update_enterprise] and [delete_enterprise] pass nothing but
    enterprise objects to [session.add] and [session.delete]: no user,
    role or scope is added or deleted on its own. *)
Theorem enterprise_closures_hand_over_enterprises (self : UpdateEvent)
    (store : Store.t) (cb : M unit) :
  cb = create_enterprise_db_access self
  ∨ cb = update_enterprise_db_access self
  ∨ cb = delete_enterprise_db_access self →
  forallb is_enterprise (Session.added (snd (cb (Session.open store)))) = true
  ∧ forallb is_enterprise (Session.deleted (snd (cb (Session.open store)))) = true.
Proof.
  intros Hcb. assert (hands_over is_enterprise cb) as Hh; [| by apply Hh].
  destruct Hcb as [-> | [-> | ->]].
  - unfold create_enterprise_db_access. hand.
  - unfold update_enterprise_db_access, get_enterprise. hand.
  - unfold delete_enterprise_db_access, get_enterprise. hand.
Qed.

Lemma quiet_lift {A : Type} (r : res A) : quiet (lift r).
Proof. by intros s Hs. Qed.

Lemma quiet_ret {A : Type} (a : A) : quiet (mret a).
Proof. by intros s Hs. Qed.

Lemma quiet_bind {A B : Type} (m : M A) (k : A → M B) :
  quiet m → (∀ a, quiet (k a)) → quiet (m ≫= k).
Proof.
  intros Hm Hk s Hs. unfold mbind, M_bind. specialize (Hm s Hs).
  destruct (m s) as [[a|e] s1]; cbn in Hm |- *; [by apply Hk | exact Hm].
Qed.

Lemma quiet_with_session {A : Type} (body : M A) : quiet (with_session body).
Proof. intros s _. unfold with_session. by destruct (body s). Qed.

Lemma quiet_try_except (body : M unit) (handler : exn → M unit) :
  quiet body → (∀ e, quiet (handler e)) → quiet (try_except body handler).
Proof.
  intros Hb Hh s Hs. unfold try_except. specialize (Hb s Hs).
  destruct (body s) as [[[]|e] s1]; cbn in Hb |- *; [exact Hb | by apply Hh].
Qed.

Ltac hush :=
  repeat first
    [ apply quiet_try_except
    | apply quiet_with_session
    | apply quiet_bind
    | apply quiet_ret
    | apply quiet_lift
    | match goal with
      | |- quiet (if ?b then _ else _) => destruct b
      | |- quiet (match ?x with _ => _ end) => destruct x
      end
    | intros ?; lazymatch goal with |- quiet _ => idtac end ].

(** X14. Whichever closure [update_table] picks for an event, it leaves no
    operation waiting in the session it was given: what it queued is
    either committed or dropped when the [with] block closes the
    session. *)
Theorem dispatched_closure_leaves_nothing_pending (self : UpdateEvent)
    (cb : M unit) (store : Store.t) :
  mutator self = Some cb →
  Session.pending (snd (cb (Session.open store))) = [].
Proof.
  intros Hcb. assert (quiet cb) as Hq; [| by apply Hq].
  revert Hcb. unfold mutator.
  repeat match goal with
         | |- context [if ?b then _ else _] => destruct b
         end; intros [= <-].
  - unfold create_enterprise_db_access. hush.
  - unfold update_enterprise_db_access. hush.
  - unfold delete_enterprise_db_access. hush.
  - unfold create_user_db_access. hush.
  - unfold delete_user_db_access. hush.
  - unfold update_user_db_access. hush.
Qed.

(** *** What the closures do *)

(** The run of [delete_user.db_access] on an integer [id]. *)
Lemma delete_user_run (self : UpdateEvent) (store : Store.t) (d : jdict) (k : Z) :
  data self = JObj d →
  Py.dict_lookup "id" d = Some (JInt k) →
  (∀ u, Store.users store !! k = Some u → user_id u = Some k) →
  delete_user_db_access self (Session.open store)
  = (Ok (),
     Session.mk (Store.with_users (base.delete k) store) [] []
       (match Store.users store !! k with Some u => [EUser u] | None => [] end)).
Proof.
  intros Hd Hid Hkey. unfold delete_user_db_access. rewrite Hd. run. rewrite Hid. run.
  destruct (Store.users store !! k) as [u|] eqn:Hu; run.
  - by rewrite (Hkey u eq_refl).
  - destruct store as [us rs ss es]. cbn in Hu |- *.
    unfold Store.with_users. cbn. by rewrite (delete_id _ _ Hu).
Qed.

(** X15. With an integer [data.id] within the range of the column, on a
    store that keeps its users under their own ids, [delete_user] returns
    normally and removes the user of that id from the user table, leaving
    the other users and the role, scope and enterprise tables as they
    were; when there is no such user it changes nothing, so that running
    it a second time has no further effect. *)
Theorem delete_user_removes_exactly_the_user (self : UpdateEvent) (store : Store.t)
    (d : jdict) (k : Z) :
  data self = JObj d →
  Py.dict_lookup "id" d = Some (JInt k) →
  Session.in_integer_range k →
  (∀ u, Store.users store !! k = Some u → user_id u = Some k) →
  let s' := snd (delete_user_db_access self (Session.open store)) in
  fst (delete_user_db_access self (Session.open store)) = Ok ()
  ∧ Store.users (Session.committed s') = base.delete k (Store.users store)
  ∧ same_catalog store (Session.committed s')
  ∧ Session.committed
      (snd (delete_user_db_access self (Session.open (Session.committed s'))))
    = Session.committed s'.
Proof.
  intros Hd Hid _ Hkey. cbn zeta.
  rewrite (delete_user_run self store d k Hd Hid Hkey). cbn [fst snd committed].
  split; [done |]. split; [done |]. split; [by repeat split |].
  rewrite (delete_user_run self _ d k Hd Hid).
  - cbn [snd committed]. unfold Store.with_users. cbn. by rewrite delete_delete_eq.
  - cbn. intros u. by rewrite lookup_delete_eq.
Qed.

(** X16. With an integer [data.id] within the range of the column,
    [delete_enterprise] passes to [session.delete] the enterprise found
    under that id and nothing else, and adds nothing; when there is no such
    enterprise it returns normally and leaves the store as it was. *)
Theorem delete_enterprise_deletes_one_object (self : UpdateEvent) (store : Store.t)
    (d : jdict) (k : Z) :
  data self = JObj d →
  Py.dict_lookup "id" d = Some (JInt k) →
  Session.in_integer_range k →
  let s' := snd (delete_enterprise_db_access self (Session.open store)) in
  match Store.enterprises store !! k with
  | Some e => ∃ roles scopes, Session.deleted s' = [EEnterprise e roles scopes]
  | None =>
      Session.deleted s' = []
      ∧ fst (delete_enterprise_db_access self (Session.open store)) = Ok ()
      ∧ Session.committed s' = store
  end
  ∧ Session.added s' = [].
Proof.
  intros Hd Hid _. cbn zeta.
  unfold delete_enterprise_db_access. rewrite Hd. run. rewrite Hid. run.
  destruct (Store.enterprises store !! k) as [e|] eqn:He; run.
  - split; [| done]. by exists [], [].
  - done.
Qed.

(** X17. [update_user] does nothing at all, and returns normally, when the
    event carries no snapshot, when its payload is not a dict, or when
    [enterprise_id] or [id] is missing or falsy in the payload: the session
    is not touched. *)
Theorem update_user_skips_without_snapshot_or_ids (self : UpdateEvent)
    (s : Session.t) :
  full_user self = JNull
  ∨ (∀ d, data self ≠ JObj d)
  ∨ (∃ d, data self = JObj d
          ∧ (Py.truthy (default JNull (Py.dict_lookup "enterprise_id" d)) = false
             ∨ Py.truthy (default JNull (Py.dict_lookup "id" d)) = false)) →
  update_user_db_access self s = (Ok (), s).
Proof.
  intros Hcase. unfold update_user_db_access, update_user_guard.
  unfold try_except, mbind at 1, M_bind at 1, lift at 1.
  destruct Hcase as [-> | [Hnd | (d & Hd & Hfalsy)]]; [reflexivity | |].
  - destruct (full_user self); try reflexivity;
      (destruct (data self) as [| | | | | |d]; try reflexivity; by destruct (Hnd d)).
  - rewrite Hd. cbn [Py.get]. unfold mbind, res_bind.
    destruct (full_user self); try reflexivity;
      (destruct Hfalsy as [-> | Hid]; [reflexivity |];
       destruct (Py.truthy (default JNull (Py.dict_lookup "enterprise_id" d)));
       [by rewrite Hid | reflexivity]).
Qed.


(** X19. When the payload of a user.created event lacks the nested
    [role], [scope] or [enterprise] object, [create_user] returns normally
    without touching the session: no user is added and nothing is
    committed. *)
Theorem create_user_without_nested_object (self : UpdateEvent) (d : jdict)
    (s : Session.t) :
  data self = JObj d →
  Py.dict_lookup "role" d = None
  ∨ Py.dict_lookup "scope" d = None
  ∨ Py.dict_lookup "enterprise" d = None →
  create_user_db_access self s = (Ok (), s).
Proof.
  intros Hd Hmiss. unfold create_user_db_access, try_except. rewrite Hd. run.
  destruct (Py.dict_lookup "role" d) as [r|] eqn:Hr; run; [| reflexivity].
  destruct (Py.kwargs r) as [rd|]; run; [| reflexivity].
  destruct (Role_new rd); run; [| reflexivity].
  rewrite dict_lookup_remove_ne by done.
  destruct (Py.dict_lookup "scope" d) as [x|] eqn:Hs; run; [| reflexivity].
  destruct (Py.kwargs x) as [xd|]; run; [| reflexivity].
  destruct (Scope_new xd); run; [| reflexivity].
  rewrite !dict_lookup_remove_ne by done.
  destruct Hmiss as [[=] | [[=] | ->]]. reflexivity.
Qed.



(** X21. When the payload of an enterprise.updated event is a dict with a
    [name] and an [id] key, the closure of [update_enterprise] never
    raises: whatever goes wrong in its body ends in the handler, whose
    message then formats. *)
Theorem update_enterprise_returns_with_name_and_id (self : UpdateEvent) (d : jdict)
    (s : Session.t) :
  data self = JObj d →
  Py.dict_mem "name" d = true →
  Py.dict_mem "id" d = true →
  fst (update_enterprise_db_access self s) = Ok ().
Proof.
  intros Hd [n Hn]%dict_mem_lookup [i Hi]%dict_mem_lookup.
  unfold update_enterprise_db_access, try_except.
  match goal with
  | |- context [with_session ?b s] => destruct (with_session b s) as [[[]|e] s1]
  end; [reflexivity |].
  rewrite Hd. unfold mbind, M_bind, lift.
  by rewrite (getitem_lookup _ _ _ Hn), (getitem_lookup _ _ _ Hi).
Qed.







(** *** Dispatch and the whole pipeline *)

(** X9. The [if]/[elif] chain of [update_table] has a branch for exactly
    the six kinds that the scope filter recognizes: an event that passes
    the filter always has a closure to hand to the apply loop, and an event
    of any other kind has none. *)
Theorem mutator_covers_the_recognized_kinds (self : UpdateEvent) :
  (is_Some (mutator self) ↔ recognized_kind (event self))
  ∧ (_check_valid_user_event self = true → is_Some (mutator self)).
Proof.
  assert (is_Some (mutator self) ↔ recognized_kind (event self)) as Hiff.
  { unfold mutator, recognized_kind.
    destruct (event self) as [| | | |s| |]; cbn [Py.eq_str];
      try (split; [by intros [? ?] | by intros [?|[?|[?|[?|[?|?]]]]]]).
    unfold EnterpriseEvents.ENTERPRISE_CREATED, EnterpriseEvents.ENTERPRISE_UPDATED,
      EnterpriseEvents.ENTERPRISE_DELETED, UserEvents.USER_CREATED,
      UserEvents.USER_DELETED, UserEvents.USER_UPDATED.
    repeat match goal with
           | |- context [String.eqb s ?k] =>
               destruct (String.eqb_spec s k) as [-> | ?];
               [split; [intros _; pick_disjunct | intros _; eexists; reflexivity] |]
           end.
    split; [by intros [? ?] |].
    intros [H|[H|[H|[H|[H|H]]]]]; injection H as ->; congruence. }
  split; [exact Hiff |].
  intros Hvalid. apply Hiff, recognized_kind_existsb.
  unfold _check_valid_user_event in Hvalid.
  by destruct (existsb _ (user_events ++ enterprise_events)).
Qed.

(** An event whose scopes are neither PATRIMONIAL nor ALL fails the
    filter. *)
Lemma check_valid_needs_scope (self : UpdateEvent) :
  ¬ patrimonial_or_all (event_scope self) →
  ¬ patrimonial_or_all (update_scope_or_empty self) →
  _check_valid_user_event self = false.
Proof.
  intros Hes Hus. unfold _check_valid_user_event. fold (update_scope_or_empty self).
  destruct (existsb _ (user_events ++ enterprise_events)); [| done].
  cbn [existsb id]. apply not_true_is_false.
  rewrite !orb_true_iff, !eq_str_true.
  unfold patrimonial_or_all, DefaultScope.PATRIMONIAL, DefaultScope.ALL in *.
  intros [H | [H | [H | [H | H]]]];
    [apply Hes; by left | apply Hes; by right | apply Hus; by left
     | apply Hus; by right | discriminate].
Qed.

(** X10. A well-formed message whose [event_scope] and [update_scope] are
    neither PATRIMONIAL nor ALL is dropped by [process_message] before the
    apply loop: whatever the session provider would do, no pass runs, no
    session is held, and the call returns normally. *)
Theorem process_message_drops_foreign_scope (message : string) (d : jdict)
    (s : string) (t : datetime) (fuel : nat)
    (provider : nat → res (option Session.t)) (active : nat → Session.t → bool) :
  json_loads message = Some (JObj d) →
  has_required_fields d →
  Py.dict_lookup "start_date" d = Some (JStr s) →
  fromisoformat s = Some t →
  ¬ patrimonial_or_all (default JNull (Py.dict_lookup "event_scope" d)) →
  ¬ patrimonial_or_all (default JNull (Py.dict_lookup "update_scope" d)) →
  process_message fuel provider active message = Some (Ok (), None).
Proof.
  intros Hd Hreq Hsd Ht Hes Hus. unfold process_message.
  rewrite (create_from_message_object message d Hd Hreq), Hsd.
  unfold mbind, res_bind, py_fromisoformat. cbn [default from_option id].
  rewrite Ht. unfold update_table.
  rewrite check_valid_needs_scope; [done | exact Hes |].
  unfold update_scope_or_empty. cbn [update_scope].
  destruct (default JNull (Py.dict_lookup "update_scope" d)); try exact Hus.
  by intros [? | ?].
Qed.

Lemma after_loop_with_budget {S : Type} (st : Loop.state S) :
  0 < Loop.counter st → Loop.after_loop st = Ok ().
Proof.
  intros Hpos. unfold Loop.after_loop.
  by assert ((Loop.counter st =? 0) = false) as -> by lia.
Qed.

(** A first pass that gets a session on which the callback returns ends
    the loop. *)
Lemma db_access_loop_first_pass {S : Type} (close rollback : S → S)
    (env : nat → Loop.attempt S) (fuel : nat) (retries : Z) (s s' : S) :
  Loop.acquire (env 0%nat) = Ok (Some s) →
  Loop.callback (env 0%nat) s = (Ok (), s') →
  0 < retries →
  ∃ st, Loop.__db_access_loop close rollback (Datatypes.S fuel) env retries
        = Some (Ok (), st)
        ∧ Loop.db st = Some (if Loop.is_active (env 0%nat) s' then close s' else s').
Proof.
  intros Hacq Hcb Hpos. unfold Loop.__db_access_loop. cbn [Loop.while_loop Loop.init Loop.counter].
  assert ((retries >? 0) = true) as -> by lia.
  unfold Loop.pass. rewrite Hacq, Hcb. cbn [Loop.db Loop.err Loop.counter Loop.trace].
  destruct (Loop.is_active (env 0%nat) s'); cbn [mbind option_bind];
    rewrite after_loop_with_budget by (cbn; lia);
    (eexists; split; reflexivity).
Qed.

(** X11. A well-formed user.deleted message with scope PATRIMONIAL or ALL
    and an integer [data.id] within the range of the column, processed
    while the provider yields a session at its first call, goes through
    parser, filter, dispatch and apply loop in one pass:
    [process_message] returns normally, and the session it leaves holds a
    store without the user of that id, with the other users and the role,
    scope and enterprise tables as they were. *)
Theorem process_message_deletes_the_user (message : string) (d dd : jdict)
    (s : string) (t : datetime) (k : Z) (store : Store.t) (fuel : nat)
    (provider : nat → res (option Session.t)) (active : nat → Session.t → bool) :
  json_loads message = Some (JObj d) →
  has_required_fields d →
  Py.dict_lookup "start_date" d = Some (JStr s) →
  fromisoformat s = Some t →
  Py.dict_lookup "event" d = Some (JStr "user.deleted") →
  patrimonial_or_all (default JNull (Py.dict_lookup "event_scope" d)) →
  Py.dict_lookup "data" d = Some (JObj dd) →
  Py.dict_lookup "id" dd = Some (JInt k) →
  Session.in_integer_range k →
  (∀ u, Store.users store !! k = Some u → user_id u = Some k) →
  provider 0%nat = Ok (Some (Session.open store)) →
  ∃ s', process_message (Datatypes.S fuel) provider active message
        = Some (Ok (), Some s')
        ∧ Store.users (Session.committed s') = base.delete k (Store.users store)
        ∧ same_catalog store (Session.committed s')
        ∧ Session.pending s' = [].
Proof.
  intros Hd Hreq Hsd Ht Hev Hscope Hdata Hid _ Hkey Hprov. unfold process_message.
  rewrite (create_from_message_object message d Hd Hreq), Hsd, Hev, Hdata.
  unfold mbind at 1, res_bind at 1, py_fromisoformat. cbn [default from_option id].
  rewrite Ht. unfold update_table.
  set (ev := mkUpdateEvent _ _ _ _ _ _ _).
  assert (_check_valid_user_event ev = true) as ->.
  { subst ev. unfold _check_valid_user_event. cbn [event event_scope].
    destruct Hscope as [-> | ->]; reflexivity. }
  cbn [negb].
  assert (mutator ev = Some (delete_user_db_access ev)) as -> by reflexivity.
  assert (delete_user_db_access ev (Session.open store)
          = (Ok (),
             Session.mk (Store.with_users (base.delete k) store) [] []
               (match Store.users store !! k with
                | Some u => [EUser u]
                | None => []
                end))) as Hrun
    by exact (delete_user_run ev store dd k eq_refl Hid Hkey).
  destruct (db_access_loop_first_pass Session.close Session.rollback
              (attempts provider active (delete_user_db_access ev)) fuel
              Loop.default_retries _ _ Hprov Hrun) as (st & -> & Hdb); [done |].
  cbn [mbind option_bind]. rewrite Hdb.
  eexists. split; [reflexivity |].
  destruct (Loop.is_active _ _); cbn; by repeat split.
Qed.

End UpdateEventClass.

(** ** The statements on the sample data *)

Lemma create_from_message_scalar_raises_on_null :
  Sample.json_loads "null" = Some JNull
  ∧ scalar JNull = true
  ∧ create_from_message Sample.json_loads Sample.fromisoformat "null" = Raise TypeError.
Proof.
  split; [reflexivity |]. split; [reflexivity |].
  apply (create_from_message_scalar_raises Sample.json_loads Sample.fromisoformat
           "null" JNull); reflexivity.
Defined.

Lemma create_from_message_bad_start_date_on_sample :
  Sample.json_loads Sample.bad_date_message = Some (JObj Sample.bad_date_object)
  ∧ has_required_fields Sample.bad_date_object
  ∧ Py.dict_lookup "start_date" Sample.bad_date_object = Some (JStr "yesterday")
  ∧ ¬ parseable_timestamp Sample.fromisoformat (JStr "yesterday")
  ∧ (create_from_message Sample.json_loads Sample.fromisoformat Sample.bad_date_message
     = Raise TypeError
     ∨ create_from_message Sample.json_loads Sample.fromisoformat Sample.bad_date_message
       = Raise ValueError).
Proof.
  assert (Sample.json_loads Sample.bad_date_message = Some (JObj Sample.bad_date_object))
    as Hdec by reflexivity.
  assert (has_required_fields Sample.bad_date_object) as Hreq.
  { unfold has_required_fields, required_fields.
    repeat constructor. }
  assert (¬ parseable_timestamp Sample.fromisoformat (JStr "yesterday")) as Hbad.
  { intros (s & t & [= <-] & H). vm_compute in H. discriminate. }
  split; [exact Hdec |]. split; [exact Hreq |]. split; [reflexivity |].
  split; [exact Hbad |].
  exact (create_from_message_bad_start_date Sample.json_loads Sample.fromisoformat
           Sample.bad_date_message Sample.bad_date_object (JStr "yesterday")
           Hdec Hreq eq_refl Hbad).
Defined.

(** The sample snapshot validates, with the scope name it carries. *)
Lemma sample_snapshot_validates (scope : string) :
  ∃ ur, Sample.UserRead_new
          [("id", JInt 5); ("username", JStr "testuser");
           ("scope", JObj [("id", JInt 1); ("name", JStr scope)])] = Ok ur
        ∧ Sample.read_scope_name ur = scope.
Proof. eexists. split; reflexivity. Qed.

Lemma update_user_deletes_out_of_scope_user_on_sample :
  ∃ s', update_user_db_access Sample.UserRead Sample.UserRead_new Sample.read_scope_name
          Sample.User_of_read Sample.out_of_scope_update (Session.open Sample.store)
        = (Ok (), s')
        ∧ Store.users (Session.committed s') !! 5 = None
        ∧ Session.deleted s' = [EUser Sample.testuser].
Proof.
  destruct (sample_snapshot_validates "HUMAN_RESOURCE") as (ur & Hur & Hname).
  apply (update_user_deletes_out_of_scope_user Sample.UserRead Sample.UserRead_new
           Sample.read_scope_name Sample.User_of_read Sample.out_of_scope_update
           Sample.store _ _ ur (JInt 1) (JInt 5) 5 Sample.testuser eq_refl eq_refl Hur
           eq_refl eq_refl eq_refl eq_refl eq_refl);
    [reflexivity | reflexivity | rewrite Hname; discriminate
     | rewrite Hname; discriminate].
Defined.

(** The same event with the id given as the text [5]: the lookup finds user
    5 all the same, and the user is deleted. *)
Lemma out_of_scope_user_named_by_text_is_deleted :
  Session.as_pk (JStr "5") = Ok (Some 5)
  ∧ Store.users
      (Session.committed
         (snd (update_user_db_access Sample.UserRead Sample.UserRead_new
                 Sample.read_scope_name Sample.User_of_read
                 Sample.out_of_scope_update_text_id (Session.open Sample.store))))
    !! 5 = None.
Proof. split; reflexivity. Qed.

(** An [enterprise_id] of 0 is present in the payload and falsy: the guard
    of [update_user] skips the body, and the out-of-scope user stays. *)
Lemma update_user_keeps_user_when_enterprise_id_is_0 :
  Py.getitem (data Sample.out_of_scope_update_enterprise_0) "enterprise_id" = Ok (JInt 0)
  ∧ Py.getitem (data Sample.out_of_scope_update_enterprise_0) "id" = Ok (JInt 5)
  ∧ Store.users Sample.store !! 5 = Some Sample.testuser
  ∧ (Sample.read_scope_name
       <$> (Py.kwargs (full_user Sample.out_of_scope_update_enterprise_0)
              ≫= Sample.UserRead_new)) = Ok "HUMAN_RESOURCE"
  ∧ update_user_db_access Sample.UserRead Sample.UserRead_new Sample.read_scope_name
      Sample.User_of_read Sample.out_of_scope_update_enterprise_0
      (Session.open Sample.store)
    = (Ok (), Session.open Sample.store)
  ∧ Store.users (Session.committed (Session.open Sample.store)) !! 5
    = Some Sample.testuser.
Proof. repeat split; reflexivity. Qed.

Lemma update_user_missing_sells_user_not_inserted_on_sample :
  Store.users Sample.store !! 6 = None
  ∧ update_user_db_access Sample.UserRead Sample.UserRead_new Sample.read_scope_name
      Sample.User_of_read Sample.unknown_sells_update (Session.open Sample.store)
    = (Ok (), Session.open Sample.store).
Proof.
  destruct (sample_snapshot_validates "SELLS") as (ur & Hur & Hname).
  split; [reflexivity |].
  apply (update_user_missing_sells_user_not_inserted Sample.UserRead Sample.UserRead_new
           Sample.read_scope_name Sample.User_of_read Sample.unknown_sells_update
           Sample.store _ _ ur (JInt 1) 6 eq_refl eq_refl Hur eq_refl eq_refl eq_refl);
    [lia | reflexivity | exact Hname].
Defined.

Lemma update_user_with_role_id_keeps_scope_on_sample :
  Py.getitem (data Sample.role_and_scope_update) "scope_id" = Ok (JInt 3)
  ∧ Store.scopes Sample.store !! 3 = Some Sample.patrimonial
  ∧ ∃ s' u',
      update_user_db_access Sample.UserRead Sample.UserRead_new Sample.read_scope_name
        Sample.User_of_read Sample.role_and_scope_update (Session.open Sample.store)
      = (Ok (), s')
      ∧ Store.users (Session.committed s') !! 5 = Some u'
      ∧ user_scope_id u' = user_scope_id Sample.testuser.
Proof.
  destruct (sample_snapshot_validates "SELLS") as (ur & Hur & Hname).
  split; [reflexivity |]. split; [reflexivity |].
  apply (update_user_with_role_id_keeps_scope Sample.UserRead Sample.UserRead_new
           Sample.read_scope_name Sample.User_of_read Sample.role_and_scope_update
           Sample.store _ _ ur (JInt 1) 5 2 Sample.testuser eq_refl eq_refl Hur
           eq_refl eq_refl eq_refl);
    [lia | reflexivity | reflexivity | right; exact Hname | reflexivity | lia].
Defined.

(** The stored user after the update of the sample: role 2 as asked, scope
    still 1 although the payload asked for the existing scope 3. *)
Lemma role_and_scope_update_result :
  Store.users
    (Session.committed
       (snd (update_user_db_access Sample.UserRead Sample.UserRead_new
               Sample.read_scope_name Sample.User_of_read
               Sample.role_and_scope_update (Session.open Sample.store)))) !! 5
  = Some Sample.testuser.
Proof. reflexivity. Qed.

Lemma create_user_adds_only_the_user_on_sample :
  ∃ s', create_user_db_access Sample.fromisoformat Sample.midnight Sample.Role_new
          Sample.Scope_new Sample.Enterprise_new Sample.User_new Sample.user_created
          (Session.open Sample.store) = (Ok (), s')
        ∧ Session.added s'
          = [EUser (mkUser (Some 7) (JStr "testuser2") (JStr "testemail2@test.mail.com")
                      (JStr "Test User 2") (Some 2) (Some 1) (Some 1)
                      (Some Sample.noon))]
        ∧ Store.roles (Session.committed s') = Store.roles Sample.store
        ∧ Store.scopes (Session.committed s') = Store.scopes Sample.store
        ∧ Store.enterprises (Session.committed s') = Store.enterprises Sample.store.
Proof.
  destruct (create_user_adds_only_the_user Sample.fromisoformat Sample.midnight
              Sample.Role_new Sample.Scope_new Sample.Enterprise_new Sample.User_new
              Sample.user_created Sample.store _ _ _ _ _ _ _ _ Sample.noon
              eq_refl eq_refl eq_refl eq_refl eq_refl eq_refl eq_refl eq_refl eq_refl)
    as (s' & Hrun & Hadded & _ & _ & _ & Hr & Hs & He).
  exists s'. split; [exact Hrun |]. split; [exact Hadded |]. by repeat split.
Defined.

Lemma db_access_loop_exhausted_without_session :
  match Loop.__db_access_loop id id 5 Sample.never_available Loop.default_retries with
  | Some (r, st) =>
      Loop.counter st = 0
      ∧ (Loop.ever_acquired st = false → Loop.db st = None)
      ∧ (Loop.db st = None →
         r = Raise (PlainException "Failed to connect to the database"))
      ∧ (Loop.db st ≠ None →
         ∃ e, Loop.last_caught (Loop.trace st) = Some e ∧ r = Raise e)
      ∧ r ≠ Ok ()
  | None => False
  end.
Proof.
  destruct (Loop.__db_access_loop id id 5 Sample.never_available Loop.default_retries)
    as [[r st]|] eqn:Hrun; [| discriminate Hrun].
  assert (Loop.counter st = 0) as Hzero.
  { injection Hrun as _ <-. reflexivity. }
  split; [exact Hzero |].
  exact (db_access_loop_exhausted id id Sample.never_available 5 Loop.default_retries
           r st Hrun Hzero).
Defined.

(** A session is acquired at the first pass and its callback raises; the
    four passes that follow find no session.  The budget is exhausted, a
    session was acquired and an error was caught from the failed pass, and
    yet the loop raises the generic error, not the caught one. *)
Lemma exhaustion_reports_generic_error_after_a_failed_pass :
  match Loop.__db_access_loop id id 5 Sample.session_then_nothing Loop.default_retries with
  | Some (r, st) =>
      Loop.counter st = 0
      ∧ Loop.ever_acquired st = true
      ∧ Loop.last_caught (Loop.trace st) = Some Sample.boom
      ∧ r = Raise (PlainException "Failed to connect to the database")
      ∧ r ≠ Raise Sample.boom
  | None => False
  end.
Proof. vm_compute. repeat split. discriminate. Qed.

(** A user.deleted event without [id] passes the scope filter; on a
    provider that yields a session at every call its closure raises at each
    of the 5 passes, and the loop ends by raising the [KeyError]. *)
Lemma delete_without_id_runs_the_retry_loop :
  _check_valid_user_event Sample.user_deleted_without_id = true
  ∧ match Loop.__db_access_loop Session.close Session.rollback 5
            (attempts Sample.always_available (fun _ _ => true)
               (delete_user_db_access Sample.user_deleted_without_id))
            Loop.default_retries with
    | Some (r, st) => r = Raise (KeyError "id") ∧ Loop.acquisitions st = 5%nat
    | None => False
    end.
Proof. split; [reflexivity |]. vm_compute. split; reflexivity. Qed.

(** ** The product endpoints *)

(** The key given to a new row is not in use. *)
Lemma fresh_key_is_free {A : Type} (m : gmap Z A) : m !! Store.fresh_key m = None.
Proof.
  unfold Store.fresh_key.
  assert (∀ k, is_Some (m !! k) → k ≤ map_fold (fun k _ acc => Z.max k acc) 0 m) as Hmax.
  { apply (map_fold_weak_ind
             (fun acc (m : gmap Z A) => ∀ k, is_Some (m !! k) → k ≤ acc)).
    - intros k [x Hx]. by rewrite lookup_empty in Hx.
    - intros i x m' r _ IH k. destruct (decide (i = k)) as [-> | Hne].
      + intros _. lia.
      + rewrite lookup_insert_ne by done. intros Hk. specialize (IH k Hk). lia. }
  destruct (m !! (1 + map_fold (fun k _ acc => Z.max k acc) 0 m)) as [x|] eqn:Hx;
    [| done].
  specialize (Hmax _ (ex_intro _ x Hx)). lia.
Qed.

Section ProductsProperties.

Variable UserRead : Type.
Variable user_id_of : UserRead → option Z.
Variable enterprise_of : UserRead → option Z.
Variable hierarchy_of : UserRead → Z.
Variable authorize_user :
  UserRead → list string → Z → option bool → Products.response unit.
Variable get_default_hierarchy : Products.role_ref → Z.
Variable now : datetime.
Variable refused : gmap Z Products.BaseProduct → Products.BaseProduct → bool.
Variable ProductResponse : Type.
Variable ProductResponse_new : Products.BaseProduct → res ProductResponse.

#[local] Abbreviation create_product :=
  (Products.create_product UserRead user_id_of enterprise_of authorize_user
     get_default_hierarchy now refused ProductResponse ProductResponse_new).
#[local] Abbreviation read_product :=
  (Products.read_product UserRead enterprise_of authorize_user get_default_hierarchy
     ProductResponse ProductResponse_new).
#[local] Abbreviation update_product :=
  (Products.update_product UserRead user_id_of enterprise_of hierarchy_of authorize_user
     get_default_hierarchy now refused ProductResponse ProductResponse_new).
#[local] Abbreviation delete_product :=
  (Products.delete_product UserRead enterprise_of authorize_user get_default_hierarchy).
#[local] Abbreviation find_product := (Products.find_product UserRead enterprise_of).
#[local] Abbreviation owned_by := (Products.owned_by UserRead enterprise_of).

Implicit Types (table : gmap Z Products.BaseProduct) (u : UserRead)
  (p : Products.BaseProduct).

Lemma find_product_spec table (product_id : Z) u p :
  find_product table product_id u = Some p ↔ table !! product_id = Some p ∧ owned_by u p.
Proof.
  unfold Products.find_product, Products.owned_by.
  destruct (table !! product_id) as [q|]; [| by split; [| intros [? ?]]].
  case_bool_decide as Hown; split.
  - by intros [= <-].
  - by intros [[= <-] _].
  - done.
  - intros [[= <-] ?]. done.
Qed.

(** X23. Whatever the authorization decides, [update_product] and
    [delete_product] leave every row but the one named by [product_id] as it
    was, and leave that one as it was too unless it belongs to the
    enterprise of the calling user: a product of another enterprise is never
    changed or removed. *)
Theorem update_and_delete_touch_only_the_own_product (product_id : Z)
    (product : Products.ProductUpdate) u table (k : Z) p :
  table !! k = Some p →
  k ≠ product_id ∨ ¬ owned_by u p →
  snd (update_product product_id product u table) !! k = Some p
  ∧ snd (delete_product product_id u table) !! k = Some p.
Proof.
  intros Hk Hother. unfold Products.update_product, Products.delete_product.
  assert (k ≠ product_id ∨ find_product table product_id u = None) as Hcase.
  { destruct Hother as [Hne | Hforeign]; [by left |].
    destruct (decide (k = product_id)) as [-> | Hne]; [right | by left].
    destruct (find_product table product_id u) as [q|] eqn:Hq; [| done].
    apply find_product_spec in Hq as [Hq Hown]. rewrite Hk in Hq.
    injection Hq as <-. by destruct Hforeign. }
  split.
  - destruct (authorize_user u _ _ _) as [[]| |]; cbn; try done.
    destruct Hcase as [Hne | ->]; [| done].
    destruct (find_product table product_id u); cbn; [| done].
    destruct (refused _ _); cbn; [done |]. by rewrite lookup_insert_ne.
  - destruct (authorize_user u _ _ _) as [[]| |]; cbn; try done.
    destruct Hcase as [Hne | ->]; [| done].
    destruct (find_product table product_id u); cbn; [| done].
    by rewrite lookup_delete_ne.
Qed.

(** X24. [create_product] never changes or removes an existing row.  When
    it answers with a value, the table has gained exactly one row, under a
    key that was free, which belongs to the enterprise of the calling user
    and names that user as its creator. *)
Theorem create_product_adds_one_own_row (product : Products.ProductCreate) u table :
  (∀ k p, table !! k = Some p → snd (create_product product u table) !! k = Some p)
  ∧ (∀ r, fst (create_product product u table) = Products.Returned r →
          ∃ k p,
            table !! k = None
            ∧ snd (create_product product u table) = <[k := p]> table
            ∧ Products.id p = Some k
            ∧ owned_by u p
            ∧ Products.created_by p = user_id_of u
            ∧ Products.name p = Some (Products.new_name product)
            ∧ Products.stock p = Some (Products.new_stock product)).
Proof.
  unfold Products.create_product, Products.owned_by.
  destruct (authorize_user u _ _ _) as [[]| |]; cbn; [| by split | by split].
  destruct (enterprise_of u) as [e|]; cbn; [| by split].
  destruct (refused table _) eqn:Href; cbn; [by split |].
  pose proof (fresh_key_is_free table) as Hfree.
  split.
  - intros k p Hk. rewrite lookup_insert_ne; [done |]. intros <-. congruence.
  - intros r _. eexists _, _. split; [exact Hfree |]. by repeat split.
Qed.


(** X26. When [update_product] answers with a value, the row of that id
    belonged to the enterprise of the calling user, and the new row differs
    from it only in the fields the update sets and in the two stamps: it
    keeps its id, enterprise, creator and creation date, names the calling
    user as its last updater and the current time as its update date, and
    every field the update leaves unset is as before. *)
Theorem update_product_keeps_identity (product_id : Z)
    (product : Products.ProductUpdate) u table (r : ProductResponse) :
  fst (update_product product_id product u table) = Products.Returned r →
  ∃ p p',
    table !! product_id = Some p
    ∧ owned_by u p
    ∧ snd (update_product product_id product u table) = <[product_id := p']> table
    ∧ Products.id p' = Products.id p
    ∧ Products.enterprise_id p' = Products.enterprise_id p
    ∧ Products.created_by p' = Products.created_by p
    ∧ Products.created_at p' = Products.created_at p
    ∧ Products.last_updated_by p' = user_id_of u
    ∧ Products.updated_at p' = Some now
    ∧ (Products.upd_name product = None → Products.name p' = Products.name p)
    ∧ (Products.upd_cost product = None → Products.cost p' = Products.cost p)
    ∧ (Products.upd_stock product = None → Products.stock p' = Products.stock p)
    ∧ (Products.upd_price product = None → Products.price p' = Products.price p)
    ∧ (Products.upd_description product = None →
       Products.description p' = Products.description p).
Proof.
  unfold Products.update_product.
  destruct (authorize_user u _ _ _) as [[]| |]; cbn; [| done | done].
  destruct (find_product table product_id u) as [p|] eqn:Hp; cbn; [| done].
  apply find_product_spec in Hp as [Hp Hown].
  destruct (refused _ _); cbn; [done |].
  intros _. eexists p, _. split; [exact Hp |]. split; [exact Hown |].
  split; [reflexivity |]. cbn.
  repeat split; by intros ->.
Qed.

(** X27. An endpoint that answers with an [HTTPException], be it the
    refusal of the authorization, the 403 of a user without enterprise or
    the 404 of a product that is not found, has not changed the product
    table. *)
Theorem http_errors_change_nothing (product_id : Z) (new : Products.ProductCreate)
    (product : Products.ProductUpdate) u table (status_code : Z) (detail : string) :
  (fst (create_product new u table) = Products.HTTPException status_code detail →
   snd (create_product new u table) = table)
  ∧ (fst (update_product product_id product u table)
     = Products.HTTPException status_code detail →
     snd (update_product product_id product u table) = table)
  ∧ (fst (delete_product product_id u table) = Products.HTTPException status_code detail →
     snd (delete_product product_id u table) = table).
Proof.
  unfold Products.create_product, Products.update_product, Products.delete_product,
    Products.respond.
  split; [| split].
  - destruct (authorize_user u _ _ _) as [[]| |]; cbn; try done.
    destruct (enterprise_of u); cbn; [| done].
    destruct (refused table _); cbn; [done |].
    by destruct (ProductResponse_new _).
  - destruct (authorize_user u _ _ _) as [[]| |]; cbn; try done.
    destruct (find_product table product_id u); cbn; [| done].
    destruct (refused _ _); cbn; [done |].
    by destruct (ProductResponse_new _).
  - destruct (authorize_user u _ _ _) as [[]| |]; cbn; try done.
    by destruct (find_product table product_id u).
Qed.

(** X28. [create_product] writes the row before it builds its response:
    when the database accepts the row and the validation of the response
    fails, the exception is not caught and the row is in the table all the
    same. *)
Theorem create_product_commits_before_responding (product : Products.ProductCreate)
    u table (e : Z) (err : exn) :
  authorize_user u Products.operation_scopes
    (get_default_hierarchy (Products.Member Products.COLLABORATOR)) None = Products.Returned () →
  enterprise_of u = Some e →
  let db_product :=
    Products.mkBaseProduct None
      (Some (Products.new_name product)) (Some (Products.new_cost product))
      (Products.new_description product) (Some (Products.new_stock product)) (Some e)
      None (Some now) None None (user_id_of u) None in
  let row := Products.set_id (Store.fresh_key table) db_product in
  refused table db_product = false →
  ProductResponse_new row = Raise err →
  fst (create_product product u table) = Products.Uncaught err
  ∧ snd (create_product product u table) !! Store.fresh_key table = Some row
  ∧ table !! Store.fresh_key table = None.
Proof.
  intros Hauth He db_product row Hacc Hresp.
  unfold Products.create_product, Products.respond.
  rewrite Hauth, He. fold db_product. rewrite Hacc. cbn zeta. fold row.
  rewrite Hresp. cbn [fst snd].
  split; [done |]. split; [apply lookup_insert_eq | apply fresh_key_is_free].
Qed.

(** X29. A product that [create_product] answered with can be read back by
    the same user, with the same answer; after [delete_product] answered
    with a value, every authorized [read_product] of that id answers 404. *)
Theorem create_read_and_delete_read (product_id : Z) (new : Products.ProductCreate)
    u u' table :
  (∀ r, fst (create_product new u table) = Products.Returned r →
        ∃ k, table !! k = None
             ∧ read_product k u (snd (create_product new u table)) = Products.Returned r)
  ∧ (∀ m, fst (delete_product product_id u table) = Products.Returned m →
          authorize_user u' Products.operation_scopes
            (get_default_hierarchy (Products.Member Products.COLLABORATOR)) None = Products.Returned () →
          read_product product_id u' (snd (delete_product product_id u table))
          = Products.HTTPException 404 "Product not found").
Proof.
  split.
  - intros r. unfold Products.create_product, Products.read_product.
    destruct (authorize_user u _ _ _) as [[]| |]; cbn; [| done | done].
    destruct (enterprise_of u) as [e|] eqn:He; cbn; [| done].
    destruct (refused table _); cbn; [done |].
    intros Hr. exists (Store.fresh_key table). split; [apply fresh_key_is_free |].
    unfold Products.find_product. rewrite lookup_insert_eq. cbn.
    rewrite He. by rewrite bool_decide_eq_true_2.
  - intros m. unfold Products.delete_product, Products.read_product.
    destruct (authorize_user u _ _ _) as [[]| |]; cbn; [| done | done].
    destruct (find_product table product_id u); cbn; [| done].
    intros _ ->. unfold Products.find_product. by rewrite lookup_delete_eq.
Qed.

End ProductsProperties.

(** ** The further statements on the sample data *)

Lemma db_access_loop_recovers_at_the_third_call :
  ∃ st,
    Loop.__db_access_loop id id 3 Cases.recovering 5 = Some (Ok (), st)
    ∧ Loop.db st = Some ()
    ∧ Loop.acquisitions st = 3%nat
    ∧ LoopTrace.calls st = 1%nat
    ∧ LoopTrace.slept st = 10
    ∧ Loop.counter st = 3.
Proof.
  apply (db_access_loop_recovers id id Cases.recovering 2 5 () ()).
  - intros j Hj. destruct j as [|[|j]]; [reflexivity | reflexivity | lia].
  - reflexivity.
  - reflexivity.
  - lia.
Defined.

Lemma db_access_loop_never_available_on_sample :
  ∃ st,
    Loop.__db_access_loop id id 5 Sample.never_available 5
    = Some (Raise (PlainException "Failed to connect to the database"), st)
    ∧ Loop.acquisitions st = 5%nat
    ∧ LoopTrace.calls st = 0%nat
    ∧ LoopTrace.slept st = 25.
Proof.
  apply (db_access_loop_never_available id id Sample.never_available 5);
    [lia | intros j _; reflexivity].
Defined.

Lemma db_access_loop_ends_on_sample :
  ∃ r st,
    Loop.__db_access_loop id id 5 Sample.session_then_nothing 5 = Some (r, st)
    ∧ Z.of_nat (Loop.acquisitions st) ≤ 5.
Proof.
  apply (db_access_loop_ends_when_acquisition_returns id id Sample.session_then_nothing 5).
  intros i. destruct i; eexists; reflexivity.
Defined.

Lemma db_access_loop_normal_return_on_sample :
  ∃ st,
    Loop.__db_access_loop id id 3 Cases.recovering 5 = Some (Ok (), st)
    ∧ 0 < Loop.counter st
    ∧ Loop.ever_acquired st = true.
Proof.
  eexists. split; [vm_compute; reflexivity |].
  apply (db_access_loop_normal_return id id Cases.recovering 3 5);
    [lia | vm_compute; reflexivity].
Defined.

Lemma db_access_loop_with_negative_budget :
  Loop.__db_access_loop id id 7 Cases.recovering (-1) = Some (Ok (), Loop.init (-1)).
Proof.
  apply (db_access_loop_without_budget id id Cases.recovering 7 (-1)). lia.
Defined.

Lemma sample_envelope_is_complete (kind scope : string) (payload : json) :
  has_required_fields (Cases.envelope kind scope payload).
Proof. unfold has_required_fields, required_fields. repeat constructor. Qed.

Lemma create_from_message_builds_event_on_sample :
  create_from_message Cases.json_loads Sample.fromisoformat Cases.delete_5_message
  = Ok (Some (mkUpdateEvent (JStr "user.deleted") (JStr "PATRIMONIAL")
                (JObj [("id", JInt 5)]) Sample.noon (JStr "rh_service") JNull JNull)).
Proof.
  apply (create_from_message_builds_event Cases.json_loads Sample.fromisoformat
           Cases.delete_5_message Cases.delete_5_object "2024-05-17T12:00:00" Sample.noon);
    [reflexivity | apply sample_envelope_is_complete | reflexivity | reflexivity].
Defined.

Lemma create_from_message_on_an_array_of_names :
  create_from_message Cases.json_loads Sample.fromisoformat Cases.names_message
  = Raise TypeError.
Proof.
  apply (create_from_message_on_container Cases.json_loads Sample.fromisoformat
           Cases.names_message Cases.names_array);
    [reflexivity | right; eexists; reflexivity].
Defined.

#[local] Abbreviation sample_process_message :=
  (process_message Cases.json_loads Sample.fromisoformat Sample.midnight Sample.Role_new
     Sample.Scope_new Sample.Enterprise_new Sample.User_new Sample.UserRead
     Sample.UserRead_new Sample.read_scope_name Sample.User_of_read
     Sample.EnterpriseUpdate_new).

Lemma process_message_drops_foreign_scope_on_sample :
  sample_process_message 0 Sample.always_available (fun _ _ => true) Cases.foreign_message
  = Some (Ok (), None).
Proof.
  apply (process_message_drops_foreign_scope Cases.json_loads Sample.fromisoformat
           Sample.midnight Sample.Role_new Sample.Scope_new Sample.Enterprise_new
           Sample.User_new Sample.UserRead Sample.UserRead_new Sample.read_scope_name
           Sample.User_of_read Sample.EnterpriseUpdate_new Cases.foreign_message
           Cases.foreign_object "2024-05-17T12:00:00" Sample.noon);
    [reflexivity | apply sample_envelope_is_complete | reflexivity | reflexivity
     | by intros [? | ?] | by intros [? | ?]].
Defined.

Lemma process_message_deletes_the_user_on_sample :
  ∃ s',
    sample_process_message 1 Sample.always_available (fun _ _ => true)
      Cases.delete_5_message = Some (Ok (), Some s')
    ∧ Store.users (Session.committed s') = base.delete 5 (Store.users Sample.store)
    ∧ same_catalog Sample.store (Session.committed s')
    ∧ Session.pending s' = [].
Proof.
  apply (process_message_deletes_the_user Cases.json_loads Sample.fromisoformat
           Sample.midnight Sample.Role_new Sample.Scope_new Sample.Enterprise_new
           Sample.User_new Sample.UserRead Sample.UserRead_new Sample.read_scope_name
           Sample.User_of_read Sample.EnterpriseUpdate_new Cases.delete_5_message
           Cases.delete_5_object [("id", JInt 5)] "2024-05-17T12:00:00" Sample.noon 5
           Sample.store);
    [reflexivity | apply sample_envelope_is_complete | reflexivity | reflexivity
     | reflexivity | by left | reflexivity | reflexivity
     | unfold Session.in_integer_range; lia
     | intros u [= <-]; reflexivity | reflexivity].
Defined.

#[local] Abbreviation sample_mutator :=
  (mutator Sample.fromisoformat Sample.midnight Sample.Role_new Sample.Scope_new
     Sample.Enterprise_new Sample.User_new Sample.UserRead Sample.UserRead_new
     Sample.read_scope_name Sample.User_of_read Sample.EnterpriseUpdate_new).
#[local] Abbreviation sample_update_user :=
  (update_user_db_access Sample.UserRead Sample.UserRead_new Sample.read_scope_name
     Sample.User_of_read).
#[local] Abbreviation sample_create_user :=
  (create_user_db_access Sample.fromisoformat Sample.midnight Sample.Role_new
     Sample.Scope_new Sample.Enterprise_new Sample.User_new).

Lemma dispatched_closure_leaves_nothing_pending_on_sample :
  sample_mutator Cases.scope_update = Some (sample_update_user Cases.scope_update)
  ∧ Session.pending
      (snd (sample_update_user Cases.scope_update (Session.open Sample.store))) = [].
Proof.
  split; [reflexivity |].
  apply (dispatched_closure_leaves_nothing_pending Sample.fromisoformat Sample.midnight
           Sample.Role_new Sample.Scope_new Sample.Enterprise_new Sample.User_new
           Sample.UserRead Sample.UserRead_new Sample.read_scope_name Sample.User_of_read
           Sample.EnterpriseUpdate_new Cases.scope_update).
  reflexivity.
Defined.

Lemma delete_user_removes_exactly_the_user_on_sample :
  fst (delete_user_db_access Cases.delete_user_5 (Session.open Sample.store)) = Ok ()
  ∧ Store.users
      (Session.committed
         (snd (delete_user_db_access Cases.delete_user_5 (Session.open Sample.store))))
    = base.delete 5 (Store.users Sample.store)
  ∧ same_catalog Sample.store
      (Session.committed
         (snd (delete_user_db_access Cases.delete_user_5 (Session.open Sample.store))))
  ∧ Session.committed
      (snd (delete_user_db_access Cases.delete_user_5
              (Session.open
                 (Session.committed
                    (snd (delete_user_db_access Cases.delete_user_5
                            (Session.open Sample.store)))))))
    = Session.committed
        (snd (delete_user_db_access Cases.delete_user_5 (Session.open Sample.store))).
Proof.
  apply (delete_user_removes_exactly_the_user Cases.delete_user_5 Sample.store
           [("id", JInt 5)] 5);
    [reflexivity | reflexivity | unfold Session.in_integer_range; lia
     | intros u [= <-]; reflexivity].
Defined.

Lemma delete_enterprise_deletes_one_object_on_sample :
  (∃ roles scopes,
      Session.deleted
        (snd (delete_enterprise_db_access Cases.delete_enterprise_1
                (Session.open Cases.store)))
      = [EEnterprise Cases.acme roles scopes])
  ∧ Session.added
      (snd (delete_enterprise_db_access Cases.delete_enterprise_1
              (Session.open Cases.store))) = [].
Proof.
  apply (delete_enterprise_deletes_one_object Cases.delete_enterprise_1 Cases.store
           [("id", JInt 1)] 1 eq_refl eq_refl).
  unfold Session.in_integer_range. lia.
Defined.

Lemma user_closures_reach_only_users_on_sample :
  forallb is_user
    (Session.added (snd (sample_update_user Cases.scope_update
                           (Session.open Sample.store)))) = true
  ∧ forallb is_user
      (Session.deleted (snd (sample_update_user Cases.scope_update
                               (Session.open Sample.store)))) = true
  ∧ same_catalog Sample.store
      (Session.committed (snd (sample_update_user Cases.scope_update
                                 (Session.open Sample.store)))).
Proof.
  apply (user_closures_reach_only_users Sample.fromisoformat Sample.midnight
           Sample.Role_new Sample.Scope_new Sample.Enterprise_new Sample.User_new
           Sample.UserRead Sample.UserRead_new Sample.read_scope_name Sample.User_of_read
           Cases.scope_update Sample.store).
  right. left. reflexivity.
Defined.

Lemma enterprise_closures_hand_over_enterprises_on_sample :
  forallb is_enterprise
    (Session.added
       (snd (create_enterprise_db_access Sample.Role_new Sample.Scope_new
               Sample.Enterprise_new Cases.create_enterprise_2
               (Session.open Cases.store)))) = true
  ∧ forallb is_enterprise
      (Session.deleted
         (snd (create_enterprise_db_access Sample.Role_new Sample.Scope_new
                 Sample.Enterprise_new Cases.create_enterprise_2
                 (Session.open Cases.store)))) = true.
Proof.
  apply (enterprise_closures_hand_over_enterprises Sample.Role_new Sample.Scope_new
           Sample.Enterprise_new Sample.EnterpriseUpdate_new Cases.create_enterprise_2
           Cases.store).
  left. reflexivity.
Defined.

Lemma update_user_skips_without_snapshot_on_sample :
  sample_update_user Cases.delete_user_5 (Session.open Sample.store)
  = (Ok (), Session.open Sample.store).
Proof.
  apply (update_user_skips_without_snapshot_or_ids Sample.UserRead Sample.UserRead_new
           Sample.read_scope_name Sample.User_of_read Cases.delete_user_5).
  left. reflexivity.
Defined.


Lemma create_user_without_nested_object_on_sample :
  sample_create_user Cases.delete_user_5 (Session.open Sample.store)
  = (Ok (), Session.open Sample.store).
Proof.
  apply (create_user_without_nested_object Sample.fromisoformat Sample.midnight
           Sample.Role_new Sample.Scope_new Sample.Enterprise_new Sample.User_new
           Cases.delete_user_5 [("id", JInt 5)]);
    [reflexivity | left; reflexivity].
Defined.


Lemma update_enterprise_returns_on_sample :
  fst (update_enterprise_db_access Sample.EnterpriseUpdate_new Cases.update_enterprise_1
         (Session.open Cases.store)) = Ok ().
Proof.
  apply (update_enterprise_returns_with_name_and_id Sample.EnterpriseUpdate_new
           Cases.update_enterprise_1
           [("id", JInt 1); ("name", JStr "UpdatedEnterprise")]);
    reflexivity.
Defined.


#[local] Abbreviation sample_update_product :=
  (Products.update_product Cases.user Cases.uid Cases.enterprise Cases.hierarchy
     Cases.authorize_user Cases.get_default_hierarchy Sample.midnight Cases.refused
     Products.BaseProduct Cases.ProductResponse_new).
#[local] Abbreviation sample_delete_product :=
  (Products.delete_product Cases.user Cases.enterprise Cases.authorize_user
     Cases.get_default_hierarchy).
#[local] Abbreviation sample_create_product :=
  (Products.create_product Cases.user Cases.uid Cases.enterprise Cases.authorize_user
     Cases.get_default_hierarchy Sample.midnight Cases.refused Products.BaseProduct
     Cases.ProductResponse_new).

(** Alice, of enterprise 1, asks for product 2, which belongs to
    enterprise 2. *)
Lemma update_and_delete_leave_the_foreign_product :
  snd (sample_update_product 2 Cases.rename Cases.alice Cases.products) !! 2
  = Some Cases.desk
  ∧ snd (sample_delete_product 2 Cases.alice Cases.products) !! 2 = Some Cases.desk.
Proof.
  apply (update_and_delete_touch_only_the_own_product Cases.user Cases.uid
           Cases.enterprise Cases.hierarchy Cases.authorize_user
           Cases.get_default_hierarchy Sample.midnight Cases.refused
           Products.BaseProduct Cases.ProductResponse_new 2 Cases.rename Cases.alice
           Cases.products 2 Cases.desk);
    [reflexivity | right; discriminate].
Defined.

Lemma update_product_keeps_identity_on_sample :
  ∃ p',
    snd (sample_update_product 1 Cases.rename Cases.alice Cases.products)
    = <[1 := p']> Cases.products
    ∧ Products.name p' = Some "Updated Product Name"
    ∧ Products.id p' = Some 1
    ∧ Products.enterprise_id p' = Some 1
    ∧ Products.created_by p' = Some 5
    ∧ Products.last_updated_by p' = Some 5
    ∧ Products.updated_at p' = Some Sample.midnight
    ∧ Products.cost p' = Products.cost Cases.chair
    ∧ Products.stock p' = Some 10.
Proof.
  destruct (update_product_keeps_identity Cases.user Cases.uid Cases.enterprise
              Cases.hierarchy Cases.authorize_user Cases.get_default_hierarchy
              Sample.midnight Cases.refused Products.BaseProduct
              Cases.ProductResponse_new 1 Cases.rename Cases.alice Cases.products
              _ eq_refl)
    as (p & p' & Hp & _ & Htable & Hid & Hent & Hby & _ & Hlast & Hat & _ & Hcost
        & Hstock & _).
  injection Hp as <-.
  exists p'. split; [exact Htable |].
  assert (Products.name p' = Some "Updated Product Name") as Hname.
  { apply (f_equal (fun t => Products.name <$> t !! 1)) in Htable.
    rewrite lookup_insert_eq in Htable. cbn in Htable. by injection Htable as <-. }
  split; [exact Hname |].
  rewrite Hid, Hent, Hby, Hlast, Hat, (Hcost eq_refl), (Hstock eq_refl).
  by repeat split.
Defined.

(** A product with a negative cost is written, and the response that
    would report it does not validate. *)
Lemma create_product_commits_the_underpriced_product :
  fst (sample_create_product Cases.underpriced Cases.alice Cases.products)
  = Products.Uncaught ValidationError
  ∧ is_Some (snd (sample_create_product Cases.underpriced Cases.alice Cases.products) !! 3)
  ∧ Cases.products !! 3 = None.
Proof.
  destruct (create_product_commits_before_responding Cases.user Cases.uid
              Cases.enterprise Cases.authorize_user Cases.get_default_hierarchy
              Sample.midnight Cases.refused Products.BaseProduct
              Cases.ProductResponse_new Cases.underpriced Cases.alice Cases.products
              1 ValidationError eq_refl eq_refl eq_refl eq_refl)
    as (Hout & Hrow & Hfree).
  assert (Store.fresh_key Cases.products = 3) as Hkey by reflexivity.
  rewrite Hkey in Hrow, Hfree.
  split; [exact Hout |]. split; [by eexists | exact Hfree].
Defined.
